(** * Framework assessment tool: a shallow embedding of
    [tools/framework_assessment.py] and the properties of its pipeline.

    Conventions of the embedding.
    - A Python [dict] is an insertion-ordered association list with unique
      keys: [dict_set] overwrites in place or appends at the end.
    - A Python [float] is read as the rational number it stands for ([Q]);
      an [int] counter is a [nat], injected into [Q] where Python's true
      division converts it.  Equality of scores is [Qeq] ([==]).  The
      weighted sum is also given in IEEE binary64 ([Binary64]), where its
      two sample values are evaluated.
    - An exception is a value of an error monad ([exc]).  The arithmetic can
      raise [ZeroDivisionError]; a query of the file system can raise
      [OSError] ([Path.exists()] and [Path.is_dir()] answer False for a
      missing path and re-raise every other error of the operating system).
    - What the tool does not compute itself is an input, the record [Host]:
      the answers of the file system, the directories [os.walk] yields, and
      the two library operations on text the tool relies on ([str.lower()]
      and the [/] of [pathlib]).  A [pathlib.Path] is represented by its
      [str()].  The outcome of the external build is a [BuildOutcome].
    - A phase that mutates [self.result] and may raise returns the result as
      the phase left it together with the exception, if any: what was stored
      before the exception stays stored.
    - In-place mutation of the statuses held by the three dictionaries is
      a map over the dictionary's values; no status object is shared by two
      dictionaries (each comes from its own constructor call). *)

From Stdlib Require Import String Ascii List Bool Arith ZArith QArith Lia Lqa Floats.
Import ListNotations.

Local Close Scope Q_scope.
Local Open Scope string_scope.
Local Open Scope nat_scope.

(** ** Exceptions *)

Inductive PyExc : Type :=
| ZeroDivisionError
| OSError (message : string).

Inductive exc (A : Type) : Type :=
| Return (a : A)
| Raise (e : PyExc).
Arguments Return {A} a.
Arguments Raise {A} e.

Definition exc_bind {A B : Type} (c : exc A) (k : A -> exc B) : exc B :=
  match c with
  | Return a => k a
  | Raise e => Raise e
  end.

Declare Scope exc_scope.
Delimit Scope exc_scope with exc.
Notation "x <- c ;; k" := (exc_bind c (fun x => k))
  (at level 61, c at next level, right associativity) : exc_scope.


(** [str(e)]; an [OSError] carries the text [str] gives for it. *)
Definition exc_str (e : PyExc) : string :=
  match e with
  | ZeroDivisionError => "division by zero"
  | OSError message => message
  end.

(** ** Dictionaries *)

Definition dict (V : Type) : Type := list (string * V).

Fixpoint dict_set {V : Type} (d : dict V) (k : string) (v : V) : dict V :=
  match d with
  | [] => [(k, v)]
  | (k', v') :: d' =>
      if String.eqb k' k then (k, v) :: d' else (k', v') :: dict_set d' k v
  end.

Fixpoint dict_get {V : Type} (d : dict V) (k : string) : option V :=
  match d with
  | [] => None
  | (k', v') :: d' => if String.eqb k' k then Some v' else dict_get d' k
  end.

Definition dict_keys {V : Type} (d : dict V) : list string := map fst d.
Definition dict_values {V : Type} (d : dict V) : list V := map snd d.
Definition dict_len {V : Type} (d : dict V) : nat := length d.

(** [for v in d.values(): <mutate v>]: every value is updated in place. *)
Definition dict_update_values {V : Type} (f : V -> V) (d : dict V) : dict V :=
  map (fun kv => (fst kv, f (snd kv))) d.

(** ** Strings, paths and the host *)

(** [needle in hay] *)
Fixpoint str_in (needle hay : string) : bool :=
  if String.prefix needle hay then true
  else match hay with
       | EmptyString => false
       | String _ hay' => str_in needle hay'
       end.

(** The host the tool runs on, as the tool sees it.  Paths are the [str()]
    of the [pathlib.Path] objects of the source. *)
Record Host : Type := {
  path_div : string -> string -> string;  (* str(Path(p) / c) *)
  fs_exists : string -> exc bool;         (* Path(p).exists() *)
  fs_is_dir : string -> exc bool;         (* Path(p).is_dir() *)
  fs_walk : string -> list string;        (* str(root) of each triple of os.walk(p) *)
  str_lower : string -> string            (* s.lower() *)
}.

(** ** Data model *)

Record ModuleStatus : Type := mkModuleStatus {
  name : string;
  path : string;
  exists_ : bool;
  has_pom : bool;
  compilable : bool;
  has_tests : bool;
  test_coverage : Q;
  issues : list string
}.

(** [ModuleStatus(name=..., path=...)] with the defaults of the dataclass;
    [__post_init__] replaces the [None] of [issues] by a fresh empty list. *)
Definition ModuleStatus_new (n p : string) : ModuleStatus :=
  mkModuleStatus n p false false false false 0 [].

Definition set_exists (b : bool) (s : ModuleStatus) : ModuleStatus :=
  mkModuleStatus (name s) (path s) b (has_pom s) (compilable s)
                 (has_tests s) (test_coverage s) (issues s).
Definition set_has_pom (b : bool) (s : ModuleStatus) : ModuleStatus :=
  mkModuleStatus (name s) (path s) (exists_ s) b (compilable s)
                 (has_tests s) (test_coverage s) (issues s).
Definition set_compilable (b : bool) (s : ModuleStatus) : ModuleStatus :=
  mkModuleStatus (name s) (path s) (exists_ s) (has_pom s) b
                 (has_tests s) (test_coverage s) (issues s).
Definition set_has_tests (b : bool) (s : ModuleStatus) : ModuleStatus :=
  mkModuleStatus (name s) (path s) (exists_ s) (has_pom s) (compilable s)
                 b (test_coverage s) (issues s).
Definition set_test_coverage (q : Q) (s : ModuleStatus) : ModuleStatus :=
  mkModuleStatus (name s) (path s) (exists_ s) (has_pom s) (compilable s)
                 (has_tests s) q (issues s).
(** [status.issues.append(msg)] *)
Definition issues_append (msg : string) (s : ModuleStatus) : ModuleStatus :=
  mkModuleStatus (name s) (path s) (exists_ s) (has_pom s) (compilable s)
                 (has_tests s) (test_coverage s) (issues s ++ [msg]).

Record PerformanceMetrics : Type := mkPerformanceMetrics {
  test_name : string;
  target_value : Q;
  actual_value : Q;
  unit_ : string;
  passed : bool;
  details : string
}.

Record AssessmentResult : Type := mkAssessmentResult {
  framework_modules : dict ModuleStatus;
  business_modules : dict ModuleStatus;
  support_modules : dict ModuleStatus;
  performance_metrics : list PerformanceMetrics;
  integration_tests : dict bool;
  overall_score : Q;
  recommendations : list string;
  timestamp : string
}.

Definition set_framework_modules (d : dict ModuleStatus) (r : AssessmentResult) :=
  mkAssessmentResult d (business_modules r) (support_modules r)
    (performance_metrics r) (integration_tests r) (overall_score r)
    (recommendations r) (timestamp r).
Definition set_business_modules (d : dict ModuleStatus) (r : AssessmentResult) :=
  mkAssessmentResult (framework_modules r) d (support_modules r)
    (performance_metrics r) (integration_tests r) (overall_score r)
    (recommendations r) (timestamp r).
Definition set_support_modules (d : dict ModuleStatus) (r : AssessmentResult) :=
  mkAssessmentResult (framework_modules r) (business_modules r) d
    (performance_metrics r) (integration_tests r) (overall_score r)
    (recommendations r) (timestamp r).
Definition set_performance_metrics (l : list PerformanceMetrics) (r : AssessmentResult) :=
  mkAssessmentResult (framework_modules r) (business_modules r) (support_modules r)
    l (integration_tests r) (overall_score r) (recommendations r) (timestamp r).
Definition set_integration_tests (d : dict bool) (r : AssessmentResult) :=
  mkAssessmentResult (framework_modules r) (business_modules r) (support_modules r)
    (performance_metrics r) d (overall_score r) (recommendations r) (timestamp r).
Definition set_overall_score (q : Q) (r : AssessmentResult) :=
  mkAssessmentResult (framework_modules r) (business_modules r) (support_modules r)
    (performance_metrics r) (integration_tests r) q (recommendations r) (timestamp r).
Definition set_recommendations (l : list string) (r : AssessmentResult) :=
  mkAssessmentResult (framework_modules r) (business_modules r) (support_modules r)
    (performance_metrics r) (integration_tests r) (overall_score r) l (timestamp r).

(** The three module groups, as [getattr(self.result, result_key)] reads them. *)
Inductive ModuleGroup : Type :=
| Framework
| Business
| Support.

Definition group_modules (g : ModuleGroup) (r : AssessmentResult) : dict ModuleStatus :=
  match g with
  | Framework => framework_modules r
  | Business => business_modules r
  | Support => support_modules r
  end.

Definition set_group_modules (g : ModuleGroup) (d : dict ModuleStatus)
    (r : AssessmentResult) : AssessmentResult :=
  match g with
  | Framework => set_framework_modules d r
  | Business => set_business_modules d r
  | Support => set_support_modules d r
  end.

(** The statuses visited by
    [for modules_dict in [framework, business, support]:
       for module_status in modules_dict.values()], in that order. *)
Definition all_statuses (r : AssessmentResult) : list ModuleStatus :=
  dict_values (framework_modules r) ++ dict_values (business_modules r)
    ++ dict_values (support_modules r).

(** The same double loop when its body mutates the status. *)
Definition update_all_statuses (f : ModuleStatus -> ModuleStatus)
    (r : AssessmentResult) : AssessmentResult :=
  mkAssessmentResult
    (dict_update_values f (framework_modules r))
    (dict_update_values f (business_modules r))
    (dict_update_values f (support_modules r))
    (performance_metrics r) (integration_tests r) (overall_score r)
    (recommendations r) (timestamp r).

(** ** [FrameworkAssessment.__init__] *)

Definition initial_result (ts : string) : AssessmentResult :=
  mkAssessmentResult [] [] [] [] [] 0 [] ts.

Definition expected_framework_modules : list string :=
  ["common"; "network"; "rpc"; "cache"; "database";
   "actor"; "ecs"; "event"; "config"; "security";
   "monitor"; "concurrent"].

Definition expected_business_modules : list string :=
  ["gateway"; "login"; "payment"; "chat";
   "activity"; "ranking"; "logic"; "scene"].


(** ** Phase 1: module completeness *)

(** [path.exists() and path.is_dir()]: [is_dir] is asked only when
    [exists] answered True. *)
Definition exists_and_is_dir (h : Host) (p : string) : exc bool :=
  (e <- fs_exists h p ;;
   if e then fs_is_dir h p else Return false)%exc.

(** [_analyze_module]; [p] is the [Path] handed over, and [str(path)] too. *)
Definition analyze_module (h : Host) (n p : string) : exc ModuleStatus :=
  (let status := ModuleStatus_new n p in
   is_directory <- exists_and_is_dir h p ;;
   let status := set_exists is_directory status in
   if negb (exists_ status) then
     Return (issues_append "模块目录不存在" status)
   else
     let pom_file := path_div h p "pom.xml" in
     pom_exists <- fs_exists h pom_file ;;
     let status := set_has_pom pom_exists status in
     let status :=
       if negb (has_pom status) then issues_append "缺少pom.xml文件" status
       else status in
     let src_main := path_div h (path_div h (path_div h p "src") "main") "java" in
     src_main_exists <- fs_exists h src_main ;;
     let status :=
       if negb src_main_exists then issues_append "缺少标准Maven源码结构" status
       else status in
     let src_test := path_div h (path_div h (path_div h p "src") "test") "java" in
     src_test_exists <- fs_exists h src_test ;;
     let status := set_has_tests src_test_exists status in
     let status :=
       if negb (has_tests status) then issues_append "缺少测试代码" status
       else status in
     Return status)%exc.

(** The location [_check_modules] resolves for a module of [base_dir];
    [root] is [self.framework_root]. *)
Definition module_path (h : Host) (root base_dir module_name : string) : string :=
  if String.eqb base_dir "frame"
  then path_div h (path_div h root base_dir) ("frame-" ++ module_name)
  else path_div h (path_div h root base_dir) module_name.

(** The loop [for n in names: d[n] = f(n)] when [f] may raise: the loop
    stops at the first exception, and the entries stored before it stay in
    the dictionary. *)
Fixpoint store_each {V : Type} (f : string -> exc V) (names : list string)
    (d : dict V) : dict V * option PyExc :=
  match names with
  | [] => (d, None)
  | n :: names' =>
      match f n with
      | Return v => store_each f names' (dict_set d n v)
      | Raise e => (d, Some e)
      end
  end.

(** [_check_modules]; [result_key] selects the dictionary of the result. *)
Definition check_modules (h : Host) (root base_dir : string)
    (expected_modules : list string) (result_key : ModuleGroup)
    (r : AssessmentResult) : AssessmentResult * option PyExc :=
  let '(modules_dict, raised) :=
    store_each
      (fun module_name =>
         analyze_module h module_name (module_path h root base_dir module_name))
      expected_modules (group_modules result_key r) in
  (set_group_modules result_key modules_dict r, raised).

(** The body of the [os.walk] loop of [_check_support_modules], on the pair
    [(test_framework_exists, admin_console_exists)]. *)
Definition walk_step (h : Host) (flags : bool * bool) (root : string) : bool * bool :=
  let '(test_framework_exists, admin_console_exists) := flags in
  let test_framework_exists :=
    if str_in "test-framework" (str_lower h root) || str_in "testing" (str_lower h root)
    then true else test_framework_exists in
  let admin_console_exists :=
    if str_in "admin" (str_lower h root) && str_in "console" (str_lower h root)
    then true else admin_console_exists in
  (test_framework_exists, admin_console_exists).

(** [ModuleStatus(name=..., path=..., exists=..., issues=...)] *)
Definition ModuleStatus_found (n p : string) (found : bool) (missing : string)
  : ModuleStatus :=
  mkModuleStatus n p found false false false 0
    (if found then [] else [missing]).

(** [_check_support_modules] *)
Definition check_support_modules (h : Host) (root : string)
    (r : AssessmentResult) : AssessmentResult * option PyExc :=
  let launcher_path := path_div h root "launcher" in
  match analyze_module h "launcher" launcher_path with
  | Raise e => (r, Some e)
  | Return launcher =>
      let r := set_support_modules
                 (dict_set (support_modules r) "launcher" launcher) r in
      let common_path := path_div h root "common" in
      match analyze_module h "common" common_path with
      | Raise e => (r, Some e)
      | Return common =>
          let r := set_support_modules
                     (dict_set (support_modules r) "common" common) r in
          let '(test_framework_exists, admin_console_exists) :=
            fold_left (walk_step h) (fs_walk h root) (false, false) in
          let r := set_support_modules
                     (dict_set (support_modules r) "test-framework"
                        (ModuleStatus_found "test-framework" "distributed"
                           test_framework_exists "测试框架模块缺失")) r in
          let r := set_support_modules
                     (dict_set (support_modules r) "admin-console"
                        (ModuleStatus_found "admin-console" "not_found"
                           admin_console_exists "后台管理控制台缺失")) r in
          (r, None)
      end
  end.

(** One statement after another: the second runs on the result the first
    left, unless the first raised. *)
Definition and_then (first : AssessmentResult * option PyExc)
    (second : AssessmentResult -> AssessmentResult * option PyExc)
  : AssessmentResult * option PyExc :=
  match snd first with
  | Some e => first
  | None => second (fst first)
  end.

(** [_check_module_completeness] *)
Definition check_module_completeness (h : Host) (root : string)
    (r : AssessmentResult) : AssessmentResult * option PyExc :=
  and_then (check_modules h root "frame" expected_framework_modules Framework r)
    (fun r =>
       and_then (check_modules h root "business" expected_business_modules Business r)
         (fun r => check_support_modules h root r)).

(** ** Phase 2: the build *)

(** What [subprocess.run(["mvn", "clean", "compile", "-q"], timeout=300)]
    does: it returns with an exit code and the captured error output, or
    raises [TimeoutExpired], or raises something else. *)
Inductive BuildOutcome : Type :=
| Completed (returncode : Z) (stderr : string)
| TimeoutExpired
| OtherError (msg : string).

Inductive LogLevel : Type :=
| INFO
| WARNING
| ERROR.

Definition LogRecord : Type := (LogLevel * string)%type.

(** The body of the inner loop of [_check_compilation]. *)
Definition mark_compilation (compilation_success : bool) (s : ModuleStatus)
  : ModuleStatus :=
  if exists_ s && has_pom s then
    let s := set_compilable compilation_success s in
    if negb compilation_success then issues_append "编译失败" s else s
  else s.

(** [_check_compilation]: the result after the call and the records it
    sends to the logger. *)
Definition check_compilation (build : BuildOutcome) (r : AssessmentResult)
  : AssessmentResult * list LogRecord :=
  let log := [(INFO, "检查项目编译状态...")] in
  match build with
  | Completed returncode stderr =>
      let compilation_success := Z.eqb returncode 0 in
      let r := update_all_statuses (mark_compilation compilation_success) r in
      if negb compilation_success
      then (r, app log [(WARNING, "编译失败: " ++ stderr)])
      else (r, log)
  | TimeoutExpired => (r, app log [(ERROR, "编译超时")])
  | OtherError msg => (r, app log [(ERROR, "编译检查出错: " ++ msg)])
  end.

(** ** Phase 3: coverage estimate *)

(** The body of the inner loop of [_check_test_coverage]. *)
Definition estimate_coverage (s : ModuleStatus) : ModuleStatus :=
  if has_tests s then set_test_coverage 60 s else set_test_coverage 0 s.

Definition check_test_coverage (r : AssessmentResult) : AssessmentResult :=
  update_all_statuses estimate_coverage r.

(** ** Phases 4 and 5: the benchmark and scenario registries *)

Definition performance_append (m : PerformanceMetrics) (r : AssessmentResult) :=
  set_performance_metrics (performance_metrics r ++ [m]) r.

Definition test_actor_performance (r : AssessmentResult) : AssessmentResult :=
  let r := performance_append
    (mkPerformanceMetrics "Actor消息处理吞吐量" 1000000 0 "msg/s" false
       "需要实现Actor系统性能测试") r in
  performance_append
    (mkPerformanceMetrics "Actor并发数量" 100000 0 "actors" false
       "需要实现Actor并发测试") r.

Definition test_network_performance (r : AssessmentResult) : AssessmentResult :=
  performance_append
    (mkPerformanceMetrics "网络延迟99分位" 10 0 "ms" false
       "需要实现网络性能测试") r.

Definition test_rpc_performance (r : AssessmentResult) : AssessmentResult :=
  performance_append
    (mkPerformanceMetrics "RPC调用延迟" 1 0 "ms" false
       "需要实现RPC性能测试") r.

Definition test_database_performance (r : AssessmentResult) : AssessmentResult :=
  performance_append
    (mkPerformanceMetrics "数据库操作TPS" 100000 0 "ops/s" false
       "需要实现数据库性能测试") r.

Definition run_performance_tests (r : AssessmentResult) : AssessmentResult :=
  let r := test_actor_performance r in
  let r := test_network_performance r in
  let r := test_rpc_performance r in
  test_database_performance r.

Definition test_scenarios : list string :=
  ["玩家登录流程测试"; "聊天系统流程测试"; "支付流程测试";
   "登录风暴测试"; "场景压力测试"; "活动高峰测试";
   "服务故障测试"; "网络分区测试"; "数据一致性测试"].

Definition run_integration_tests (r : AssessmentResult) : AssessmentResult :=
  set_integration_tests
    (fold_left (fun d scenario => dict_set d scenario false)
       test_scenarios (integration_tests r))
    r.

(** ** Phase 6: scores and recommendations *)

Definition Q_of_nat (n : nat) : Q := inject_Z (Z.of_nat n).

(** Python's true division [a / b]. *)
Definition py_div (a b : Q) : exc Q :=
  if Qeq_bool b 0 then Raise ZeroDivisionError else Return (a / b)%Q.

(** Python's [a < b] on numbers. *)
Definition Qltb (a b : Q) : bool :=
  (Qnum a * QDen b <? Qnum b * QDen a)%Z.

(** Python's [sum(xs)]. *)
Definition py_sum (xs : list Q) : Q := fold_left Qplus xs 0%Q.

(** Loop body of [_calculate_module_score] on [(total_modules, working_modules)]. *)
Definition module_score_step (acc : nat * nat) (s : ModuleStatus) : nat * nat :=
  let '(total_modules, working_modules) := acc in
  let total_modules := total_modules + 1 in
  if exists_ s && has_pom s then (total_modules, working_modules + 1)
  else (total_modules, working_modules).

Definition calculate_module_score (r : AssessmentResult) : exc Q :=
  let '(total_modules, working_modules) :=
    fold_left module_score_step (all_statuses r) (0, 0) in
  if 0 <? total_modules then
    (q <- py_div (Q_of_nat working_modules) (Q_of_nat total_modules) ;;
     Return (q * 100)%Q)%exc
  else Return 0%Q.

(** Loop body of [_calculate_build_score] on [(total_modules, compilable_modules)]. *)
Definition build_score_step (acc : nat * nat) (s : ModuleStatus) : nat * nat :=
  let '(total_modules, compilable_modules) := acc in
  if exists_ s && has_pom s then
    let total_modules := total_modules + 1 in
    if compilable s then (total_modules, compilable_modules + 1)
    else (total_modules, compilable_modules)
  else (total_modules, compilable_modules).

Definition calculate_build_score (r : AssessmentResult) : exc Q :=
  let '(total_modules, compilable_modules) :=
    fold_left build_score_step (all_statuses r) (0, 0) in
  if 0 <? total_modules then
    (q <- py_div (Q_of_nat compilable_modules) (Q_of_nat total_modules) ;;
     Return (q * 100)%Q)%exc
  else Return 0%Q.

(** Loop body of [_calculate_test_score] on [(total_coverage, module_count)]. *)
Definition test_score_step (acc : Q * nat) (s : ModuleStatus) : Q * nat :=
  let '(total_coverage, module_count) := acc in
  if exists_ s then ((total_coverage + test_coverage s)%Q, module_count + 1)
  else (total_coverage, module_count).

Definition calculate_test_score (r : AssessmentResult) : exc Q :=
  let '(total_coverage, module_count) :=
    fold_left test_score_step (all_statuses r) (0%Q, 0) in
  if 0 <? module_count then py_div total_coverage (Q_of_nat module_count)
  else Return 0%Q.

(** [sum(1 for x in xs if p(x))] *)
Definition count_if {A : Type} (p : A -> bool) (xs : list A) : nat :=
  fold_left (fun n x => if p x then n + 1 else n) xs 0.

Definition calculate_performance_score (r : AssessmentResult) : exc Q :=
  match performance_metrics r with
  | [] => Return 0%Q
  | _ =>
      let passed_tests := count_if passed (performance_metrics r) in
      (q <- py_div (Q_of_nat passed_tests)
                   (Q_of_nat (length (performance_metrics r))) ;;
       Return (q * 100)%Q)%exc
  end.

Definition calculate_integration_score (r : AssessmentResult) : exc Q :=
  match integration_tests r with
  | [] => Return 0%Q
  | _ =>
      let passed_tests :=
        count_if (fun b : bool => b) (dict_values (integration_tests r)) in
      (q <- py_div (Q_of_nat passed_tests)
                   (Q_of_nat (dict_len (integration_tests r))) ;;
       Return (q * 100)%Q)%exc
  end.

Definition rec_module : string := "需要完善框架模块结构，特别是ECS和Security模块".
Definition rec_build : string := "需要修复编译问题，确保所有模块能正常构建".
Definition rec_test : string := "需要增加测试覆盖率，目标达到80%以上".
Definition rec_perf : string := "需要实现性能基准测试，验证系统性能指标".
Definition rec_integration : string := "需要实现端到端集成测试，验证业务流程".

(** The part of [_calculate_score_and_recommendations] after the five
    category scores are known: the list [scores] and its sum. *)
Definition weighted_scores (module_score build_score test_score perf_score
    integration_score : Q) : list Q :=
  let scores : list Q := [] in
  let scores := (scores ++ [module_score * 0.3])%Q%list in
  let scores := (scores ++ [build_score * 0.2])%Q%list in
  let scores := (scores ++ [test_score * 0.2])%Q%list in
  let scores := (scores ++ [perf_score * 0.15])%Q%list in
  let scores := (scores ++ [integration_score * 0.15])%Q%list in
  scores.

(** The chain of [if]s that fills [recommendations]. *)
Definition derive_recommendations (module_score build_score test_score
    perf_score integration_score : Q) : list string :=
  let recommendations : list string := [] in
  let recommendations :=
    if Qltb module_score 80 then app recommendations [rec_module]
    else recommendations in
  let recommendations :=
    if Qltb build_score 90 then app recommendations [rec_build]
    else recommendations in
  let recommendations :=
    if Qltb test_score 70 then app recommendations [rec_test]
    else recommendations in
  let recommendations :=
    if Qltb perf_score 60 then app recommendations [rec_perf]
    else recommendations in
  let recommendations :=
    if Qltb integration_score 50 then app recommendations [rec_integration]
    else recommendations in
  recommendations.

(** [_calculate_score_and_recommendations]: the result is written only
    after the five scores have been computed, so an exception raised by one
    of them leaves it as it was. *)
Definition calculate_score_and_recommendations (r : AssessmentResult)
  : exc AssessmentResult :=
  (module_score <- calculate_module_score r ;;
   build_score <- calculate_build_score r ;;
   test_score <- calculate_test_score r ;;
   perf_score <- calculate_performance_score r ;;
   integration_score <- calculate_integration_score r ;;
   let r := set_overall_score
              (py_sum (weighted_scores module_score build_score test_score
                         perf_score integration_score)) r in
   Return (set_recommendations
             (derive_recommendations module_score build_score test_score
                perf_score integration_score) r))%exc.

(** The same sum in IEEE binary64, added from left to right starting from
    the integer 0 of [sum]. *)
Module Binary64.
#[local] Set Warnings "-inexact-float".
Definition weighted_scores (module_score build_score test_score perf_score
    integration_score : float) : list float :=
  [module_score * 0.3; build_score * 0.2; test_score * 0.2;
   perf_score * 0.15; integration_score * 0.15]%float.
Definition py_sum (xs : list float) : float :=
  fold_left PrimFloat.add xs 0%float.
End Binary64.

(** ** The pipeline *)

(** The [except Exception as e] branch of [run_assessment]: one
    recommendation is appended to the result as the phases left it. *)
Definition on_error (e : PyExc) (r : AssessmentResult) : AssessmentResult :=
  set_recommendations
    (app (recommendations r) ["评估过程出现错误: " ++ exc_str e]) r.

(** [run_assessment] on a [FrameworkAssessment] object whose [result] is [r]
    (the result of [__init__] at the first call); [root] is
    [self.framework_root].  [_check_compilation] catches what the build
    raises, phases 3 to 5 raise nothing. *)
Definition run_assessment_on (h : Host) (root : string)
    (build : BuildOutcome) (r : AssessmentResult) : AssessmentResult :=
  match check_module_completeness h root r with
  | (r, Some e) => on_error e r
  | (r, None) =>
      let r := fst (check_compilation build r) in
      let r := check_test_coverage r in
      let r := run_performance_tests r in
      let r := run_integration_tests r in
      match calculate_score_and_recommendations r with
      | Return r' => r'
      | Raise e => on_error e r
      end
  end.

Section Pipeline.
Variable h : Host.
Variable root : string.
Variable build : BuildOutcome.
Variable ts : string.

(** The result when phase 1 ends, by returning or by raising, and the
    exception it raised, if any. *)
Definition after_probing : AssessmentResult :=
  fst (check_module_completeness h root (initial_result ts)).
Definition probing_error : option PyExc :=
  snd (check_module_completeness h root (initial_result ts)).

(** The results after phases 2, 3 and 5 of a run in which phase 1 returned
    (as functions of the result of phase 1 they are defined in any case). *)
Definition after_build : AssessmentResult :=
  fst (check_compilation build after_probing).
Definition after_coverage : AssessmentResult :=
  check_test_coverage after_build.
Definition after_registries : AssessmentResult :=
  run_integration_tests (run_performance_tests after_coverage).

(** The first [run_assessment] of an object. *)
Definition run_assessment : AssessmentResult :=
  run_assessment_on h root build (initial_result ts).
End Pipeline.

(** ** The structured report *)

#[local] Unset Elimination Schemes.
Inductive Json : Type :=
| JBool (b : bool)
| JNum (q : Q)
| JStr (s : string)
| JList (l : list Json)
| JDict (d : list (string * Json)).
#[local] Set Elimination Schemes.

(** [dataclasses.asdict] on a [ModuleStatus]. *)
Definition asdict_status (s : ModuleStatus) : Json :=
  JDict [("name", JStr (name s)); ("path", JStr (path s));
         ("exists", JBool (exists_ s)); ("has_pom", JBool (has_pom s));
         ("compilable", JBool (compilable s)); ("has_tests", JBool (has_tests s));
         ("test_coverage", JNum (test_coverage s));
         ("issues", JList (map JStr (issues s)))].

(** [dataclasses.asdict] on a [PerformanceMetrics]. *)
Definition asdict_metric (m : PerformanceMetrics) : Json :=
  JDict [("test_name", JStr (test_name m)); ("target_value", JNum (target_value m));
         ("actual_value", JNum (actual_value m)); ("unit", JStr (unit_ m));
         ("passed", JBool (passed m)); ("details", JStr (details m))].

(** [{name: asdict(status) for name, status in d.items()}] *)
Definition modules_json (d : dict ModuleStatus) : Json :=
  JDict (map (fun kv => (fst kv, asdict_status (snd kv))) d).

(** The value [report_data] that [generate_report] hands to [json.dump]. *)
Definition report_data (r : AssessmentResult) : Json :=
  JDict
    [("assessment_summary",
      JDict [("timestamp", JStr (timestamp r));
             ("overall_score", JNum (overall_score r));
             ("recommendations", JList (map JStr (recommendations r)))]);
     ("module_analysis",
      JDict [("framework_modules", modules_json (framework_modules r));
             ("business_modules", modules_json (business_modules r));
             ("support_modules", modules_json (support_modules r))]);
     ("performance_metrics", JList (map asdict_metric (performance_metrics r)));
     ("integration_tests",
      JDict (map (fun kv => (fst kv, JBool (snd kv))) (integration_tests r)))].

(** * Definitions used to state the properties *)

Definition dir_missing : string := "模块目录不存在".

(** The status of a module whose directory is not there. *)
Definition missing_status (n p : string) : ModuleStatus :=
  mkModuleStatus n p false false false false 0 [dir_missing].

Definition src_main_of (h : Host) (p : string) : string :=
  path_div h (path_div h (path_div h p "src") "main") "java".
Definition src_test_of (h : Host) (p : string) : string :=
  path_div h (path_div h (path_div h p "src") "test") "java".

(** The issues of a module whose directory is there, by the answers of the
    three checks (manifest, source layout, tests), in the order of the
    checks. *)
Definition probe_issues (pom src_main src_test : bool) : list string :=
  ((if pom then [] else ["缺少pom.xml文件"])
   ++ (if src_main then [] else ["缺少标准Maven源码结构"])
   ++ (if src_test then [] else ["缺少测试代码"]))%list.

(** The file system answers that [p] is not an existing directory:
    [exists()] answers False, or it answers True and [is_dir()] answers
    False. *)
Definition answers_missing (h : Host) (p : string) : Prop :=
  fs_exists h p = Return false \/
  (fs_exists h p = Return true /\ fs_is_dir h p = Return false).


Definition buildable_ok (s : ModuleStatus) : Prop :=
  compilable s = true -> exists_ s = true /\ has_pom s = true.

Definition buildable_invariant (r : AssessmentResult) : Prop :=
  Forall buildable_ok (all_statuses r).

(** A status reports its failing checks when a false [exists], [has_pom] or
    [has_tests] comes with at least one issue. *)
Definition failing_checks_reported (s : ModuleStatus) : Prop :=
  (exists_ s = false \/ has_pom s = false \/ has_tests s = false) -> issues s <> [].

(** Sample hosts.  Their paths are absolute, ASCII and without ".", ".." or
    doubled slashes; on such paths [pathlib]'s [/] joins with one slash and
    [str.lower()] changes the letters A to Z only. *)
Definition join_path (p c : string) : string := p ++ "/" ++ c.

Definition ascii_lower_char (c : ascii) : ascii :=
  let n := nat_of_ascii c in
  if (65 <=? n) && (n <=? 90) then ascii_of_nat (n + 32) else c.

Fixpoint ascii_lower (s : string) : string :=
  match s with
  | EmptyString => EmptyString
  | String c s' => String (ascii_lower_char c) (ascii_lower s')
  end.

(** A project that holds nothing but a directory [testing]. *)
Definition host_testing_only : Host :=
  {| path_div := join_path;
     fs_exists := fun p =>
       Return (String.eqb p "/srv/game" || String.eqb p "/srv/game/testing");
     fs_is_dir := fun p =>
       Return (String.eqb p "/srv/game" || String.eqb p "/srv/game/testing");
     fs_walk := fun top => [top; join_path top "testing"];
     str_lower := ascii_lower |}.

(** A host that answers True to every query, and whose walk yields the
    root only. *)
Definition host_all_present : Host :=
  {| path_div := join_path;
     fs_exists := fun _ => Return true;
     fs_is_dir := fun _ => Return true;
     fs_walk := fun top => [top];
     str_lower := ascii_lower |}.


(** The location phase 1 probes for module [n] of group [g]: the one
    [_check_modules] builds for the expected framework and business modules,
    and [root/launcher], [root/common] in [_check_support_modules]. *)
Definition resolved_location (h : Host) (root : string) (g : ModuleGroup)
    (n : string) : option string :=
  match g with
  | Framework =>
      if existsb (String.eqb n) expected_framework_modules
      then Some (module_path h root "frame" n) else None
  | Business =>
      if existsb (String.eqb n) expected_business_modules
      then Some (module_path h root "business" n) else None
  | Support =>
      if String.eqb n "launcher" || String.eqb n "common"
      then Some (path_div h root n) else None
  end.

Definition build_effect (build : BuildOutcome) (s : ModuleStatus) : ModuleStatus :=
  match build with
  | Completed returncode _ => mark_compilation (returncode =? 0)%Z s
  | TimeoutExpired => s
  | OtherError _ => s
  end.

Definition working (s : ModuleStatus) : bool := exists_ s && has_pom s.

(** The ratio [k / n * 100] of two counters, and 0 when there is nothing
    to count. *)
Definition percentage (k n : nat) : Q :=
  if n =? 0 then 0%Q else (Q_of_nat k / Q_of_nat n * 100)%Q.

(** The recommendations as the specification lists them: one entry per
    category whose score is below its threshold, in the fixed order. *)
Definition spec_recommendations (m b t p i : Q) : list string :=
  ((if Qlt_le_dec m 80 then [rec_module] else [])
   ++ (if Qlt_le_dec b 90 then [rec_build] else [])
   ++ (if Qlt_le_dec t 70 then [rec_test] else [])
   ++ (if Qlt_le_dec p 60 then [rec_perf] else [])
   ++ (if Qlt_le_dec i 50 then [rec_integration] else []))%list.

Ltac absurd_threshold :=
  match goal with
  | Hlt : (?a < ?b)%Q, Hle : (?b <= ?a)%Q |- _ =>
      exfalso; exact (Qlt_not_le _ _ Hlt Hle)
  end.


Definition opt_bind {A B : Type} (o : option A) (k : A -> option B) : option B :=
  match o with
  | Some a => k a
  | None => None
  end.

Declare Scope opt_scope.
Delimit Scope opt_scope with opt.
Notation "x <- c ;; k" := (opt_bind c (fun x => k))
  (at level 61, c at next level, right associativity) : opt_scope.

(** All the values of a list of optional values, if none is missing. *)
Fixpoint opt_all {A : Type} (l : list (option A)) : option (list A) :=
  match l with
  | [] => Some []
  | o :: l' => (a <- o ;; rest <- opt_all l' ;; Some (a :: rest))%opt
  end.

Definition jget (k : string) (j : Json) : option Json :=
  match j with
  | JDict d => dict_get d k
  | _ => None
  end.
Definition as_bool (j : Json) : option bool :=
  match j with JBool b => Some b | _ => None end.
Definition as_num (j : Json) : option Q :=
  match j with JNum q => Some q | _ => None end.
Definition as_str (j : Json) : option string :=
  match j with JStr s => Some s | _ => None end.
Definition as_list {A : Type} (f : Json -> option A) (j : Json) : option (list A) :=
  match j with JList l => opt_all (map f l) | _ => None end.
Definition as_dict {A : Type} (f : Json -> option A) (j : Json) : option (dict A) :=
  match j with
  | JDict d => opt_all (map (fun kv => option_map (pair (fst kv)) (f (snd kv))) d)
  | _ => None
  end.

(** Modelled from the spec: the source only writes the structured report
    (it has no reader); "reading it back" is the reader below, which looks up
    every field of the data model by its key and rebuilds the records. *)
Definition read_status (j : Json) : option ModuleStatus :=
  (n <- opt_bind (jget "name" j) as_str ;;
   p <- opt_bind (jget "path" j) as_str ;;
   e <- opt_bind (jget "exists" j) as_bool ;;
   m <- opt_bind (jget "has_pom" j) as_bool ;;
   c <- opt_bind (jget "compilable" j) as_bool ;;
   t <- opt_bind (jget "has_tests" j) as_bool ;;
   q <- opt_bind (jget "test_coverage" j) as_num ;;
   i <- opt_bind (jget "issues" j) (as_list as_str) ;;
   Some (mkModuleStatus n p e m c t q i))%opt.

(** Modelled from the spec: the reader of one benchmark entry of the report. *)
Definition read_metric (j : Json) : option PerformanceMetrics :=
  (n <- opt_bind (jget "test_name" j) as_str ;;
   t <- opt_bind (jget "target_value" j) as_num ;;
   a <- opt_bind (jget "actual_value" j) as_num ;;
   u <- opt_bind (jget "unit" j) as_str ;;
   p <- opt_bind (jget "passed" j) as_bool ;;
   d <- opt_bind (jget "details" j) as_str ;;
   Some (mkPerformanceMetrics n t a u p d))%opt.

(** Modelled from the spec: the reader of the whole structured report, the
    inverse direction of [generate_report]'s [report_data]. *)
Definition read_report (j : Json) : option AssessmentResult :=
  (summary <- jget "assessment_summary" j ;;
   analysis <- jget "module_analysis" j ;;
   fw <- opt_bind (jget "framework_modules" analysis) (as_dict read_status) ;;
   biz <- opt_bind (jget "business_modules" analysis) (as_dict read_status) ;;
   sup <- opt_bind (jget "support_modules" analysis) (as_dict read_status) ;;
   metrics <- opt_bind (jget "performance_metrics" j) (as_list read_metric) ;;
   tests <- opt_bind (jget "integration_tests" j) (as_dict as_bool) ;;
   score <- opt_bind (jget "overall_score" summary) as_num ;;
   recs <- opt_bind (jget "recommendations" summary) (as_list as_str) ;;
   ts <- opt_bind (jget "timestamp" summary) as_str ;;
   Some (mkAssessmentResult fw biz sup metrics tests score recs ts))%opt.


(** [needle] occurs in [s] as a contiguous run of characters. *)
Definition contains (needle s : string) : Prop :=
  exists pre post, s = pre ++ needle ++ post.

(** The two tests of the [os.walk] loop on one directory path. *)
Definition looks_like_test_framework (h : Host) (dir : string) : bool :=
  str_in "test-framework" (str_lower h dir) || str_in "testing" (str_lower h dir).
Definition looks_like_admin_console (h : Host) (dir : string) : bool :=
  str_in "admin" (str_lower h dir) && str_in "console" (str_lower h dir).

(** The five entries phase 4 appends. *)
Definition benchmark_entries : list PerformanceMetrics :=
  [mkPerformanceMetrics "Actor消息处理吞吐量" 1000000 0 "msg/s" false
     "需要实现Actor系统性能测试";
   mkPerformanceMetrics "Actor并发数量" 100000 0 "actors" false
     "需要实现Actor并发测试";
   mkPerformanceMetrics "网络延迟99分位" 10 0 "ms" false
     "需要实现网络性能测试";
   mkPerformanceMetrics "RPC调用延迟" 1 0 "ms" false
     "需要实现RPC性能测试";
   mkPerformanceMetrics "数据库操作TPS" 100000 0 "ops/s" false
     "需要实现数据库性能测试"].

(** The loop [for n in names: d[n] = f(n)]. *)
Definition set_each {V : Type} (f : string -> V) (names : list string)
    (d : dict V) : dict V :=
  fold_left (fun d n => dict_set d n (f n)) names d.

(** The status one run leaves for a probed module: the probe's status, then
    the build check, then the coverage estimate. *)
Definition final_of (build : BuildOutcome) (s : ModuleStatus) : ModuleStatus :=
  estimate_coverage (build_effect build s).

(** The build returned exit code 0. *)
Definition build_ok (build : BuildOutcome) : bool :=
  match build with
  | Completed returncode _ => (returncode =? 0)%Z
  | TimeoutExpired => false
  | OtherError _ => false
  end.

(** A result that already holds a stale status for the framework module
    "ecs", as an earlier run with a failed build leaves it. *)
Definition result_with_stale_ecs : AssessmentResult :=
  set_framework_modules
    [("ecs", mkModuleStatus "ecs" "/old/frame/frame-ecs" true true false true 60
               ["编译失败"])]
    (initial_result "2025-05-29 10:00:00").

(** The build returned a non-zero exit code. *)
Definition build_failed (build : BuildOutcome) : bool :=
  match build with
  | Completed returncode _ => negb (returncode =? 0)%Z
  | TimeoutExpired => false
  | OtherError _ => false
  end.


(** The value a call returned, and [dflt] when it raised. *)
Definition returned_or {V : Type} (dflt : V) (c : exc V) : V :=
  match c with
  | Return v => v
  | Raise _ => dflt
  end.

(** The status the probe returns for [n] at [p], when it returns. *)
Definition probe_value (h : Host) (n p : string) : ModuleStatus :=
  returned_or (ModuleStatus_new n p) (analyze_module h n p).

(** The probe [_check_modules] makes for a framework module and for a
    business module. *)
Definition framework_probe (h : Host) (root n : string) : exc ModuleStatus :=
  analyze_module h n (module_path h root "frame" n).
Definition business_probe (h : Host) (root n : string) : exc ModuleStatus :=
  analyze_module h n (module_path h root "business" n).

(** The two flags the [os.walk] loop ends with. *)
Definition walk_result (h : Host) (root : string) : bool * bool :=
  fold_left (walk_step h) (fs_walk h root) (false, false).

(** What [_check_support_modules] stores under each of its four keys. *)
Definition support_probe (h : Host) (root : string) (n : string) : exc ModuleStatus :=
  if String.eqb n "launcher" then analyze_module h "launcher" (path_div h root "launcher")
  else if String.eqb n "common" then analyze_module h "common" (path_div h root "common")
  else if String.eqb n "test-framework" then
    Return (ModuleStatus_found "test-framework" "distributed"
              (fst (walk_result h root)) "测试框架模块缺失")
  else
    Return (ModuleStatus_found "admin-console" "not_found"
              (snd (walk_result h root)) "后台管理控制台缺失").

Definition support_keys : list string :=
  ["launcher"; "common"; "test-framework"; "admin-console"].

(** Phase 1 of the first run returned (it raised nothing). *)
Definition probing_returned (h : Host) (root ts : string) : bool :=
  match probing_error h root ts with
  | None => true
  | Some _ => false
  end.

(** The result on which phase 6 runs when the run starts from [r] and
    phase 1 returns. *)
Definition before_scoring (h : Host) (root : string)
    (build : BuildOutcome) (r : AssessmentResult) : AssessmentResult :=
  run_integration_tests
    (run_performance_tests
       (check_test_coverage
          (fst (check_compilation build (fst (check_module_completeness h root r)))))).

(** What holds of every status when a run that started from the result of
    [__init__] ends. *)
Definition final_status_ok (build : BuildOutcome) (s : ModuleStatus) : Prop :=
  compilable s = build_ok build && (exists_ s && has_pom s) /\
  (has_pom s = true -> exists_ s = true) /\
  (has_tests s = true -> exists_ s = true) /\
  test_coverage s = (if has_tests s then 60 else 0)%Q /\
  (In "编译失败" (issues s) <->
   build_failed build = true /\ exists_ s = true /\ has_pom s = true).


(** What holds of every status when a run ends whose phase 1 raised: no
    later phase has touched it. *)
Definition aborted_status_ok (s : ModuleStatus) : Prop :=
  compilable s = false /\ test_coverage s = 0%Q /\
  (has_pom s = true -> exists_ s = true) /\
  (has_tests s = true -> exists_ s = true) /\
  ~ In "编译失败" (issues s).

(** The number of modules with [exists] and [has_pom] that phase 1 finds. *)
Definition working_modules_found (h : Host) (root ts : string) : nat :=
  length (filter working (all_statuses (after_probing h root ts))).

(** The build score a run ends with: all or nothing. *)
Definition final_build_score (h : Host) (root : string)
    (build : BuildOutcome) (ts : string) : Q :=
  if build_ok build && (0 <? working_modules_found h root ts) then 100%Q else 0%Q.

Ltac final_status_case :=
  cbn; repeat split; intros;
  repeat match goal with
         | F : False |- _ => destruct F
         | D : _ \/ _ |- _ => destruct D
         | C : _ /\ _ |- _ => destruct C
         end;
  first [reflexivity | congruence | solve [cbn [In]; auto 10]].

(** * Properties *)

(** ** Dictionaries and the double loop over the three groups *)

Lemma dict_get_update_values {V : Type} (f : V -> V) (d : dict V) (k : string) :
  dict_get (dict_update_values f d) k = option_map f (dict_get d k).
Proof.
  induction d as [|[k' v'] d IH]; simpl; [reflexivity|].
  now destruct (String.eqb k' k).
Qed.

Lemma dict_values_update_values {V : Type} (f : V -> V) (d : dict V) :
  dict_values (dict_update_values f d) = map f (dict_values d).
Proof.
  unfold dict_values, dict_update_values. rewrite !map_map. reflexivity.
Qed.

Lemma dict_keys_update_values {V : Type} (f : V -> V) (d : dict V) :
  dict_keys (dict_update_values f d) = dict_keys d.
Proof.
  unfold dict_keys, dict_update_values. rewrite map_map. reflexivity.
Qed.

Lemma all_statuses_update (f : ModuleStatus -> ModuleStatus) (r : AssessmentResult) :
  all_statuses (update_all_statuses f r) = map f (all_statuses r).
Proof.
  unfold all_statuses, update_all_statuses; simpl.
  rewrite !dict_values_update_values, !map_app. reflexivity.
Qed.

Lemma group_modules_update (f : ModuleStatus -> ModuleStatus) (g : ModuleGroup)
    (r : AssessmentResult) :
  group_modules g (update_all_statuses f r) = dict_update_values f (group_modules g r).
Proof. now destruct g. Qed.

Lemma dict_set_Forall {V : Type} (P : V -> Prop) (d : dict V) (k : string) (v : V) :
  Forall P (dict_values d) -> P v -> Forall P (dict_values (dict_set d k v)).
Proof.
  unfold dict_values.
  induction d as [|[k' v'] d IH]; simpl; intros Hd Hv.
  - now constructor.
  - inversion Hd as [|? ? Hv' Hd']; subst.
    destruct (String.eqb k' k); simpl; constructor; auto.
Qed.

Lemma dict_get_In {V : Type} (d : dict V) (k : string) (v : V) :
  dict_get d k = Some v -> In v (dict_values d).
Proof.
  induction d as [|[k' v'] d IH]; simpl; [discriminate|].
  destruct (String.eqb k' k).
  - intros [= ->]. now left.
  - intros H. right. now apply IH.
Qed.

(** ** Storing and looking up in a dictionary *)

Lemma dict_get_set_same {V : Type} (d : dict V) (k : string) (v : V) :
  dict_get (dict_set d k v) k = Some v.
Proof.
  induction d as [|[k' v'] d IH]; simpl.
  - now rewrite String.eqb_refl.
  - destruct (String.eqb k' k) eqn:E; simpl.
    + now rewrite String.eqb_refl.
    + now rewrite E.
Qed.

Lemma dict_get_set_other {V : Type} (d : dict V) (k k' : string) (v : V) :
  k <> k' -> dict_get (dict_set d k v) k' = dict_get d k'.
Proof.
  intros N. induction d as [|[k0 v0] d IH]; simpl.
  - apply String.eqb_neq in N. now rewrite N.
  - destruct (String.eqb k0 k) eqn:E; simpl.
    + apply String.eqb_eq in E. subst k0.
      apply String.eqb_neq in N. now rewrite N.
    + destruct (String.eqb k0 k'); [reflexivity|exact IH].
Qed.

Lemma dict_set_same_value {V : Type} (d : dict V) (k : string) (v : V) :
  dict_get d k = Some v -> dict_set d k v = d.
Proof.
  induction d as [|[k' v'] d IH]; simpl; [discriminate|].
  destruct (String.eqb k' k) eqn:E.
  - apply String.eqb_eq in E. subst k'. now intros [= ->].
  - intros H. now rewrite IH.
Qed.

Section SetEach.
Context {V : Type}.
Variable f : string -> V.

Lemma dict_get_set_each_notin (names : list string) (d : dict V) (k : string) :
  ~ In k names -> dict_get (set_each f names d) k = dict_get d k.
Proof.
  revert d. induction names as [|n names IH]; intros d N; [reflexivity|].
  cbn [set_each fold_left]. fold (set_each f names (dict_set d n (f n))).
  rewrite IH by (intros H; apply N; now right).
  apply dict_get_set_other. intros ->. apply N. now left.
Qed.

Lemma dict_get_set_each_in (names : list string) (d : dict V) (k : string) :
  In k names -> dict_get (set_each f names d) k = Some (f k).
Proof.
  revert d. induction names as [|n names IH]; intros d H; [destruct H|].
  cbn [set_each fold_left]. fold (set_each f names (dict_set d n (f n))).
  destruct (in_dec string_dec k names) as [Hin|Hnot].
  - now apply IH.
  - destruct H as [->|H]; [|contradiction].
    rewrite dict_get_set_each_notin by exact Hnot.
    apply dict_get_set_same.
Qed.

Lemma set_each_fixed (names : list string) (d : dict V) :
  (forall k, In k names -> dict_get d k = Some (f k)) -> set_each f names d = d.
Proof.
  induction names as [|n names IH]; intros H; [reflexivity|].
  cbn [set_each fold_left]. rewrite dict_set_same_value by (apply H; now left).
  apply IH. intros k Hk. apply H. now right.
Qed.

Lemma set_each_idempotent (names : list string) (d : dict V) :
  set_each f names (set_each f names d) = set_each f names d.
Proof.
  apply set_each_fixed. intros k Hk. now apply dict_get_set_each_in.
Qed.
End SetEach.

Lemma result_ext (r r' : AssessmentResult) :
  framework_modules r = framework_modules r' ->
  business_modules r = business_modules r' ->
  support_modules r = support_modules r' ->
  performance_metrics r = performance_metrics r' ->
  integration_tests r = integration_tests r' ->
  overall_score r = overall_score r' ->
  recommendations r = recommendations r' ->
  timestamp r = timestamp r' ->
  r = r'.
Proof.
  destruct r, r'. simpl. intros. now subst.
Qed.

(** ** The storing loop that may raise *)

Section StoreEach.
Context {V : Type}.
Variable f : string -> exc V.

Lemma store_each_Forall (P : V -> Prop) (names : list string) (d : dict V) :
  Forall P (dict_values d) ->
  (forall n v, f n = Return v -> P v) ->
  Forall P (dict_values (fst (store_each f names d))).
Proof.
  intros Hd Hf. revert d Hd.
  induction names as [|n names IH]; intros d Hd; cbn [store_each]; [exact Hd|].
  destruct (f n) as [v|e] eqn:E; [|exact Hd].
  apply IH. apply dict_set_Forall; [exact Hd|]. now apply (Hf n).
Qed.

Lemma store_each_returned (g : string -> V) (names : list string) (d : dict V) :
  (forall n v, f n = Return v -> g n = v) ->
  snd (store_each f names d) = None ->
  fst (store_each f names d) = set_each g names d /\
  Forall (fun n => f n = Return (g n)) names.
Proof.
  intros Hg. revert d.
  induction names as [|n names IH]; intros d; cbn [store_each set_each fold_left].
  - intros _. split; [reflexivity|constructor].
  - destruct (f n) as [v|e] eqn:E; [|discriminate].
    intros H. destruct (IH _ H) as [IH1 IH2].
    pose proof (Hg n v E) as Hv. subst v. split.
    + exact IH1.
    + constructor; [exact E|exact IH2].
Qed.

Lemma store_each_get (names : list string) (d : dict V) (k : string) :
  dict_get (fst (store_each f names d)) k = dict_get d k \/
  (In k names /\
   exists v, f k = Return v /\ dict_get (fst (store_each f names d)) k = Some v).
Proof.
  revert d. induction names as [|n names IH]; intros d; cbn [store_each].
  - now left.
  - destruct (f n) as [v|e] eqn:E; [|now left].
    destruct (IH (dict_set d n v)) as [H|[Hin H]]; [|right; split; [now right|exact H]].
    destruct (string_dec n k) as [->|N].
    + right. split; [now left|]. exists v. split; [exact E|].
      rewrite H. apply dict_get_set_same.
    + left. rewrite H. now apply dict_get_set_other.
Qed.

Lemma store_each_keeps (names : list string) (d : dict V) (k : string) (v : V) :
  dict_get d k = Some v -> f k = Return v ->
  dict_get (fst (store_each f names d)) k = Some v.
Proof.
  intros Hd Hf. revert d Hd.
  induction names as [|n names IH]; intros d Hd; cbn [store_each]; [exact Hd|].
  destruct (f n) as [w|e] eqn:E; [|exact Hd].
  apply IH. destruct (string_dec n k) as [->|N].
  - assert (w = v) by congruence. subst w. apply dict_get_set_same.
  - now rewrite dict_get_set_other.
Qed.

Lemma store_each_idempotent (names : list string) (d : dict V) :
  store_each f names (fst (store_each f names d)) = store_each f names d.
Proof.
  revert d. induction names as [|n names IH]; intros d; cbn [store_each].
  - reflexivity.
  - destruct (f n) as [v|e] eqn:E; [|reflexivity].
    rewrite dict_set_same_value; [apply IH|].
    apply store_each_keeps; [apply dict_get_set_same|exact E].
Qed.
End StoreEach.

(** ** What the probe returns *)

Lemma analyze_module_missing (h : Host) (n p : string) :
  answers_missing h p -> analyze_module h n p = Return (missing_status n p).
Proof.
  unfold analyze_module, exists_and_is_dir.
  intros [H|[H1 H2]]; [rewrite H|rewrite H1; cbn [exc_bind]; rewrite H2]; reflexivity.
Qed.

Lemma analyze_module_present (h : Host) (n p : string) (pom src_main src_test : bool) :
  fs_exists h p = Return true ->
  fs_is_dir h p = Return true ->
  fs_exists h (path_div h p "pom.xml") = Return pom ->
  fs_exists h (src_main_of h p) = Return src_main ->
  fs_exists h (src_test_of h p) = Return src_test ->
  analyze_module h n p =
    Return (mkModuleStatus n p true pom false src_test 0
              (probe_issues pom src_main src_test)).
Proof.
  unfold analyze_module, exists_and_is_dir, src_main_of, src_test_of.
  intros H1 H2 H3 H4 H5. rewrite H1. cbn [exc_bind]. rewrite H2. cbn.
  rewrite H3. cbn. rewrite H4. cbn. rewrite H5.
  destruct pom, src_main, src_test; reflexivity.
Qed.

(** Every status the probe returns is one of the two above. *)
Lemma analyze_module_inv (h : Host) (n p : string) (s : ModuleStatus) :
  analyze_module h n p = Return s ->
  (answers_missing h p /\ s = missing_status n p) \/
  (exists pom src_main src_test,
      fs_exists h p = Return true /\ fs_is_dir h p = Return true /\
      fs_exists h (path_div h p "pom.xml") = Return pom /\
      fs_exists h (src_main_of h p) = Return src_main /\
      fs_exists h (src_test_of h p) = Return src_test /\
      s = mkModuleStatus n p true pom false src_test 0
            (probe_issues pom src_main src_test)).
Proof.
  intros H.
  destruct (fs_exists h p) as [[|]|e1] eqn:E1.
  - destruct (fs_is_dir h p) as [[|]|e2] eqn:E2.
    + destruct (fs_exists h (path_div h p "pom.xml")) as [pom|e3] eqn:E3;
        [|unfold analyze_module, exists_and_is_dir in H;
          rewrite E1 in H; cbn [exc_bind] in H; rewrite E2 in H; cbn in H;
          rewrite E3 in H; discriminate].
      destruct (fs_exists h (src_main_of h p)) as [src_main|e4] eqn:E4;
        [|unfold analyze_module, exists_and_is_dir, src_main_of in *;
          rewrite E1 in H; cbn [exc_bind] in H; rewrite E2 in H; cbn in H;
          rewrite E3 in H; cbn in H; rewrite E4 in H; discriminate].
      destruct (fs_exists h (src_test_of h p)) as [src_test|e5] eqn:E5;
        [|unfold analyze_module, exists_and_is_dir, src_main_of, src_test_of in *;
          rewrite E1 in H; cbn [exc_bind] in H; rewrite E2 in H; cbn in H;
          rewrite E3 in H; cbn in H; rewrite E4 in H; cbn in H; rewrite E5 in H;
          discriminate].
      right. exists pom, src_main, src_test. repeat split; try assumption.
      rewrite (analyze_module_present h n p pom src_main src_test E1 E2 E3 E4 E5) in H.
      now injection H.
    + left. assert (M : answers_missing h p) by (right; split; assumption).
      split; [exact M|]. rewrite (analyze_module_missing h n p M) in H. now injection H.
    + unfold analyze_module, exists_and_is_dir in H.
      rewrite E1 in H; cbn [exc_bind] in H; rewrite E2 in H. discriminate.
  - left. assert (M : answers_missing h p) by (left; assumption).
    split; [exact M|]. rewrite (analyze_module_missing h n p M) in H. now injection H.
  - unfold analyze_module, exists_and_is_dir in H. rewrite E1 in H. discriminate.
Qed.

(** ** The shape of phase 1 *)

Lemma set_support_modules_same (r : AssessmentResult) :
  set_support_modules (support_modules r) r = r.
Proof. now destruct r. Qed.

Lemma check_support_modules_form (h : Host) (root : string) (r : AssessmentResult) :
  check_support_modules h root r =
  (set_support_modules
     (fst (store_each (support_probe h root) support_keys (support_modules r))) r,
   snd (store_each (support_probe h root) support_keys (support_modules r))).
Proof.
  unfold check_support_modules, support_keys. cbn [store_each].
  change (support_probe h root "launcher")
    with (analyze_module h "launcher" (path_div h root "launcher")).
  destruct (analyze_module h "launcher" (path_div h root "launcher")) as [l|e];
    [|cbn [fst snd]; now rewrite set_support_modules_same].
  change (support_probe h root "common")
    with (analyze_module h "common" (path_div h root "common")).
  destruct (analyze_module h "common" (path_div h root "common")) as [c|e];
    [|destruct r; reflexivity].
  change (support_probe h root "test-framework")
    with (Return (ModuleStatus_found "test-framework" "distributed"
                    (fst (walk_result h root)) "测试框架模块缺失")).
  change (support_probe h root "admin-console")
    with (Return (ModuleStatus_found "admin-console" "not_found"
                    (snd (walk_result h root)) "后台管理控制台缺失")).
  unfold walk_result.
  destruct (fold_left (walk_step h) (fs_walk h root) (false, false)) as [tf ac].
  destruct r; reflexivity.
Qed.

Lemma check_modules_form (h : Host) (root base_dir : string) (names : list string)
    (g : ModuleGroup) (r : AssessmentResult) :
  check_modules h root base_dir names g r =
  (set_group_modules g
     (fst (store_each (fun n => analyze_module h n (module_path h root base_dir n))
             names (group_modules g r))) r,
   snd (store_each (fun n => analyze_module h n (module_path h root base_dir n))
          names (group_modules g r))).
Proof.
  unfold check_modules.
  now destruct (store_each _ names (group_modules g r)).
Qed.

Section Phase1.
Variable h : Host.
Variable root : string.
Variable r : AssessmentResult.

Let fw := store_each (framework_probe h root) expected_framework_modules
            (framework_modules r).
Let biz := store_each (business_probe h root) expected_business_modules
             (business_modules r).
Let sup := store_each (support_probe h root) support_keys (support_modules r).

(** Phase 1 as three storing loops: each runs unless an earlier one
    raised. *)
Lemma check_module_completeness_form :
  check_module_completeness h root r =
  match snd fw with
  | Some e => (set_framework_modules (fst fw) r, Some e)
  | None =>
      match snd biz with
      | Some e =>
          (set_business_modules (fst biz) (set_framework_modules (fst fw) r), Some e)
      | None =>
          (set_support_modules (fst sup)
             (set_business_modules (fst biz) (set_framework_modules (fst fw) r)),
           snd sup)
      end
  end.
Proof.
  unfold check_module_completeness, and_then.
  rewrite check_modules_form. cbn [snd fst group_modules set_group_modules].
  fold (framework_probe h root). fold fw.
  destruct (snd fw) as [e|]; [reflexivity|].
  rewrite check_modules_form. cbn [snd fst group_modules set_group_modules].
  replace (business_modules (set_framework_modules (fst fw) r))
    with (business_modules r) by reflexivity.
  fold (business_probe h root). fold biz.
  destruct (snd biz) as [e|]; [reflexivity|].
  rewrite check_support_modules_form. reflexivity.
Qed.

Lemma probing_rest :
  performance_metrics (fst (check_module_completeness h root r)) = performance_metrics r /\
  integration_tests (fst (check_module_completeness h root r)) = integration_tests r /\
  overall_score (fst (check_module_completeness h root r)) = overall_score r /\
  recommendations (fst (check_module_completeness h root r)) = recommendations r /\
  timestamp (fst (check_module_completeness h root r)) = timestamp r.
Proof.
  rewrite check_module_completeness_form.
  destruct (snd fw); [repeat split|]. destruct (snd biz); repeat split.
Qed.

Lemma probing_framework :
  framework_modules (fst (check_module_completeness h root r)) = fst fw.
Proof.
  rewrite check_module_completeness_form.
  destruct (snd fw); [reflexivity|]. destruct (snd biz); reflexivity.
Qed.

Lemma probing_business :
  business_modules (fst (check_module_completeness h root r)) =
  match snd fw with
  | Some _ => business_modules r
  | None => fst biz
  end.
Proof.
  rewrite check_module_completeness_form.
  destruct (snd fw); [reflexivity|]. destruct (snd biz); reflexivity.
Qed.

Lemma probing_support :
  support_modules (fst (check_module_completeness h root r)) =
  match snd fw, snd biz with
  | None, None => fst sup
  | _, _ => support_modules r
  end.
Proof.
  rewrite check_module_completeness_form.
  destruct (snd fw); [reflexivity|]. destruct (snd biz); reflexivity.
Qed.

Lemma probing_raised :
  snd (check_module_completeness h root r) =
  match snd fw, snd biz with
  | Some e, _ => Some e
  | None, Some e => Some e
  | None, None => snd sup
  end.
Proof.
  rewrite check_module_completeness_form.
  destruct (snd fw); [reflexivity|]. destruct (snd biz); reflexivity.
Qed.

(** When phase 1 returns, each of the three loops returned. *)
Lemma probing_returned_loops :
  snd (check_module_completeness h root r) = None ->
  snd fw = None /\ snd biz = None /\ snd sup = None.
Proof.
  rewrite probing_raised.
  destruct (snd fw); [discriminate|]. destruct (snd biz); [discriminate|].
  intros H. repeat split. exact H.
Qed.

(** Whatever holds of the statuses [r] has, of every status the probe can
    return and of the two statuses built from the directory walk, holds of
    every status when phase 1 ends, by returning or by raising. *)
Lemma probing_Forall_found (P : ModuleStatus -> Prop) :
  Forall P (all_statuses r) ->
  (forall n p s, analyze_module h n p = Return s -> P s) ->
  (forall n p b m, In m ["测试框架模块缺失"; "后台管理控制台缺失"] ->
                   P (ModuleStatus_found n p b m)) ->
  Forall P (all_statuses (fst (check_module_completeness h root r))).
Proof.
  intros Hr Hp Hf. unfold all_statuses in *.
  rewrite !Forall_app in Hr. destruct Hr as (Hr1 & Hr2 & Hr3).
  rewrite probing_framework, probing_business, probing_support.
  assert (H1 : Forall P (dict_values (fst fw))).
  { apply store_each_Forall; [exact Hr1|]. intros n v. apply Hp. }
  assert (H2 : Forall P (dict_values (fst biz))).
  { apply store_each_Forall; [exact Hr2|]. intros n v. apply Hp. }
  assert (H3 : Forall P (dict_values (fst sup))).
  { apply store_each_Forall; [exact Hr3|]. intros n v. unfold support_probe.
    destruct (String.eqb n "launcher"); [apply Hp|].
    destruct (String.eqb n "common"); [apply Hp|].
    destruct (String.eqb n "test-framework"); intros [= <-]; apply Hf;
      cbn [In]; auto. }
  rewrite !Forall_app.
  destruct (snd fw); [repeat split; assumption|].
  destruct (snd biz); repeat split; assumption.
Qed.

Lemma probing_Forall (P : ModuleStatus -> Prop) :
  Forall P (all_statuses r) ->
  (forall n p s, analyze_module h n p = Return s -> P s) ->
  (forall n p b m, P (ModuleStatus_found n p b m)) ->
  Forall P (all_statuses (fst (check_module_completeness h root r))).
Proof.
  intros Hr Hp Hf. apply probing_Forall_found; auto.
Qed.
End Phase1.

(** ** Phase 1 of the first run *)

Section Probing.
Variable h : Host.
Variable root : string.
Variable ts : string.

Lemma after_probing_Forall (P : ModuleStatus -> Prop) :
  (forall n p s, analyze_module h n p = Return s -> P s) ->
  (forall n p b m, P (ModuleStatus_found n p b m)) ->
  Forall P (all_statuses (after_probing h root ts)).
Proof.
  intros Hp Hf. apply probing_Forall; [constructor|exact Hp|exact Hf].
Qed.

Lemma after_probing_rest :
  performance_metrics (after_probing h root ts) = [] /\
  integration_tests (after_probing h root ts) = [] /\
  overall_score (after_probing h root ts) = 0%Q /\
  recommendations (after_probing h root ts) = [] /\
  timestamp (after_probing h root ts) = ts.
Proof. apply (probing_rest h root (initial_result ts)). Qed.

Hypothesis returned : probing_error h root ts = None.

Lemma after_probing_probes :
  Forall (fun n => framework_probe h root n =
                   Return (probe_value h n (module_path h root "frame" n)))
    expected_framework_modules /\
  Forall (fun n => business_probe h root n =
                   Return (probe_value h n (module_path h root "business" n)))
    expected_business_modules /\
  analyze_module h "launcher" (path_div h root "launcher") =
    Return (probe_value h "launcher" (path_div h root "launcher")) /\
  analyze_module h "common" (path_div h root "common") =
    Return (probe_value h "common" (path_div h root "common")).
Proof.
  destruct (probing_returned_loops h root (initial_result ts) returned)
    as (Hfw & Hbiz & Hsup).
  assert (G : forall n p v, analyze_module h n p = Return v -> probe_value h n p = v)
    by (intros n p v E; unfold probe_value; now rewrite E).
  destruct (store_each_returned (framework_probe h root)
              (fun n => probe_value h n (module_path h root "frame" n))
              expected_framework_modules [] (fun n v => G n _ v) Hfw) as [_ F1].
  destruct (store_each_returned (business_probe h root)
              (fun n => probe_value h n (module_path h root "business" n))
              expected_business_modules [] (fun n v => G n _ v) Hbiz) as [_ F2].
  split; [exact F1|]. split; [exact F2|].
  cbn [initial_result support_modules] in Hsup.
  unfold support_keys in Hsup. cbn [store_each] in Hsup.
  change (support_probe h root "launcher")
    with (analyze_module h "launcher" (path_div h root "launcher")) in Hsup.
  destruct (analyze_module h "launcher" (path_div h root "launcher")) as [l|e] eqn:El;
    [|discriminate].
  change (support_probe h root "common")
    with (analyze_module h "common" (path_div h root "common")) in Hsup.
  destruct (analyze_module h "common" (path_div h root "common")) as [c|e] eqn:Ec;
    [|discriminate].
  unfold probe_value. now rewrite El, Ec.
Qed.

Lemma after_probing_framework :
  framework_modules (after_probing h root ts) =
  map (fun n => (n, probe_value h n (module_path h root "frame" n)))
      expected_framework_modules.
Proof.
  destruct (probing_returned_loops h root (initial_result ts) returned)
    as (Hfw & Hbiz & Hsup).
  unfold after_probing. rewrite probing_framework.
  cbn [initial_result framework_modules].
  assert (G : forall n p v, analyze_module h n p = Return v -> probe_value h n p = v)
    by (intros n p v E; unfold probe_value; now rewrite E).
  destruct (store_each_returned (framework_probe h root)
              (fun n => probe_value h n (module_path h root "frame" n))
              expected_framework_modules [] (fun n v => G n _ v) Hfw) as [-> _].
  reflexivity.
Qed.

Lemma after_probing_business :
  business_modules (after_probing h root ts) =
  map (fun n => (n, probe_value h n (module_path h root "business" n)))
      expected_business_modules.
Proof.
  destruct (probing_returned_loops h root (initial_result ts) returned)
    as (Hfw & Hbiz & Hsup).
  unfold after_probing. rewrite probing_business, Hfw.
  cbn [initial_result business_modules].
  assert (G : forall n p v, analyze_module h n p = Return v -> probe_value h n p = v)
    by (intros n p v E; unfold probe_value; now rewrite E).
  destruct (store_each_returned (business_probe h root)
              (fun n => probe_value h n (module_path h root "business" n))
              expected_business_modules [] (fun n v => G n _ v) Hbiz) as [-> _].
  reflexivity.
Qed.

Lemma after_probing_support :
  support_modules (after_probing h root ts) =
  [("launcher", probe_value h "launcher" (path_div h root "launcher"));
   ("common", probe_value h "common" (path_div h root "common"));
   ("test-framework",
    ModuleStatus_found "test-framework" "distributed"
      (fst (walk_result h root)) "测试框架模块缺失");
   ("admin-console",
    ModuleStatus_found "admin-console" "not_found"
      (snd (walk_result h root)) "后台管理控制台缺失")].
Proof.
  destruct (probing_returned_loops h root (initial_result ts) returned)
    as (Hfw & Hbiz & Hsup).
  destruct after_probing_probes as (_ & _ & El & Ec).
  unfold after_probing. rewrite probing_support, Hfw, Hbiz.
  cbn [initial_result support_modules]. unfold support_keys. cbn [store_each].
  change (support_probe h root "launcher")
    with (analyze_module h "launcher" (path_div h root "launcher")).
  rewrite El.
  change (support_probe h root "common")
    with (analyze_module h "common" (path_div h root "common")).
  rewrite Ec. reflexivity.
Qed.
End Probing.

(** ** The counting loops of the category scores *)

Lemma count_if_length {A : Type} (p : A -> bool) (xs : list A) :
  count_if p xs = length (filter p xs).
Proof.
  unfold count_if.
  assert (H : forall n, fold_left (fun n x => if p x then n + 1 else n) xs n
                        = n + length (filter p xs)).
  { induction xs as [|x xs IH]; intros n; simpl; [lia|].
    rewrite IH. destruct (p x); simpl; lia. }
  apply (H 0).
Qed.

Lemma module_score_loop (l : list ModuleStatus) (t w : nat) :
  fold_left module_score_step l (t, w) =
  (t + length l, w + length (filter working l)).
Proof.
  revert t w. induction l as [|s l IH]; intros t w; cbn [fold_left filter length].
  - f_equal; lia.
  - replace (module_score_step (t, w) s)
      with (if working s then (t + 1, w + 1) else (t + 1, w)) by reflexivity.
    destruct (working s); rewrite IH; cbn [length]; f_equal; lia.
Qed.

Lemma build_score_loop (l : list ModuleStatus) (t c : nat) :
  fold_left build_score_step l (t, c) =
  (t + length (filter working l),
   c + length (filter (fun s => working s && compilable s) l)).
Proof.
  revert t c. induction l as [|s l IH]; intros t c; cbn [fold_left filter length].
  - f_equal; lia.
  - replace (build_score_step (t, c) s)
      with (if working s
            then (if compilable s then (t + 1, c + 1) else (t + 1, c))
            else (t, c)) by reflexivity.
    destruct (working s), (compilable s); rewrite IH; cbn [andb length];
      f_equal; lia.
Qed.

Lemma test_score_loop_count (l : list ModuleStatus) (q : Q) (k : nat) :
  snd (fold_left test_score_step l (q, k)) = k + length (filter exists_ l).
Proof.
  revert q k. induction l as [|s l IH]; intros q k; cbn [fold_left filter length].
  - simpl. lia.
  - replace (test_score_step (q, k) s)
      with (if exists_ s then ((q + test_coverage s)%Q, k + 1) else (q, k))
      by reflexivity.
    destruct (exists_ s); rewrite IH; cbn [length]; lia.
Qed.

Lemma Q_of_nat_nonzero (n : nat) : 0 < n -> Qeq_bool (Q_of_nat n) 0 = false.
Proof.
  intros H. unfold Qeq_bool, Q_of_nat. simpl.
  apply Z.eqb_neq. lia.
Qed.

Lemma py_div_nonzero (a : Q) (n : nat) :
  0 < n -> py_div a (Q_of_nat n) = Return (a / Q_of_nat n)%Q.
Proof.
  intros H. unfold py_div. now rewrite Q_of_nat_nonzero.
Qed.

Lemma guarded_ratio (k n : nat) :
  (if 0 <? n
   then (q <- py_div (Q_of_nat k) (Q_of_nat n) ;; Return (q * 100)%Q)%exc
   else Return 0%Q) = Return (percentage k n).
Proof.
  unfold percentage. destruct n as [|n]; [reflexivity|].
  cbn [Nat.ltb Nat.leb Nat.eqb].
  rewrite py_div_nonzero by lia. reflexivity.
Qed.

Lemma calculate_module_score_value (r : AssessmentResult) :
  calculate_module_score r =
  Return (percentage (length (filter working (all_statuses r)))
                     (length (all_statuses r))).
Proof.
  unfold calculate_module_score. rewrite module_score_loop. simpl.
  apply guarded_ratio.
Qed.

Lemma calculate_build_score_value (r : AssessmentResult) :
  calculate_build_score r =
  Return (percentage
            (length (filter (fun s => working s && compilable s) (all_statuses r)))
            (length (filter working (all_statuses r)))).
Proof.
  unfold calculate_build_score. rewrite build_score_loop. simpl.
  apply guarded_ratio.
Qed.

Lemma calculate_test_score_value (r : AssessmentResult) :
  calculate_test_score r =
  Return (let total_coverage :=
            fst (fold_left test_score_step (all_statuses r) (0%Q, 0)) in
          let module_count := length (filter exists_ (all_statuses r)) in
          if module_count =? 0 then 0%Q
          else (total_coverage / Q_of_nat module_count)%Q).
Proof.
  unfold calculate_test_score.
  pose proof (test_score_loop_count (all_statuses r) 0%Q 0) as H.
  destruct (fold_left test_score_step (all_statuses r) (0%Q, 0)) as [tc mc].
  simpl in *. subst mc.
  destruct (length (filter exists_ (all_statuses r))) as [|k]; [reflexivity|].
  cbn [Nat.ltb Nat.leb Nat.eqb]. now rewrite py_div_nonzero by lia.
Qed.

Lemma calculate_performance_score_value (r : AssessmentResult) :
  calculate_performance_score r =
  Return (percentage (length (filter passed (performance_metrics r)))
                     (length (performance_metrics r))).
Proof.
  unfold calculate_performance_score. rewrite count_if_length.
  destruct (performance_metrics r) as [|m ms] eqn:E; [reflexivity|].
  unfold percentage. cbn [length Nat.eqb].
  now rewrite py_div_nonzero by (simpl; lia).
Qed.

Lemma calculate_integration_score_value (r : AssessmentResult) :
  calculate_integration_score r =
  Return (percentage
            (length (filter (fun b : bool => b) (dict_values (integration_tests r))))
            (dict_len (integration_tests r))).
Proof.
  unfold calculate_integration_score. rewrite count_if_length.
  destruct (integration_tests r) as [|m ms] eqn:E; [reflexivity|].
  unfold percentage, dict_len. cbn [length Nat.eqb].
  now rewrite py_div_nonzero by (simpl; lia).
Qed.

(** The aggregator returns, with the five scores its helpers return. *)
Lemma calculate_score_returns (r : AssessmentResult) :
  exists m b t p i,
    calculate_module_score r = Return m /\
    calculate_build_score r = Return b /\
    calculate_test_score r = Return t /\
    calculate_performance_score r = Return p /\
    calculate_integration_score r = Return i /\
    calculate_score_and_recommendations r =
      Return (set_recommendations (derive_recommendations m b t p i)
                (set_overall_score (py_sum (weighted_scores m b t p i)) r)).
Proof.
  unfold calculate_score_and_recommendations.
  rewrite calculate_module_score_value, calculate_build_score_value,
    calculate_test_score_value, calculate_performance_score_value,
    calculate_integration_score_value.
  do 5 eexists. repeat split.
Qed.

Lemma filter_none {A : Type} (p : A -> bool) (l : list A) :
  Forall (fun x => p x = false) l -> filter p l = [].
Proof.
  induction 1 as [|x l Hx Hl IH]; simpl; [reflexivity|].
  now rewrite Hx.
Qed.

(** C6: each category score returns a number for every result, and that
    number is 0 when there is nothing to divide by: no status with [exists]
    and [has_pom] for the build score, no status with [exists] for the test
    score, no metric and no scenario for the benchmark and scenario scores
    (and no status at all for the module score); the aggregator itself
    returns for every result, so no division by zero can be raised. *)
Theorem category_scores_total_and_zero_on_empty :
  forall (r : AssessmentResult),
    ((exists q, calculate_module_score r = Return q) /\
     (exists q, calculate_build_score r = Return q) /\
     (exists q, calculate_test_score r = Return q) /\
     (exists q, calculate_performance_score r = Return q) /\
     (exists q, calculate_integration_score r = Return q) /\
     (exists r', calculate_score_and_recommendations r = Return r')) /\
    (all_statuses r = [] -> calculate_module_score r = Return 0%Q) /\
    (Forall (fun s => exists_ s && has_pom s = false) (all_statuses r) ->
     calculate_build_score r = Return 0%Q) /\
    (Forall (fun s => exists_ s = false) (all_statuses r) ->
     calculate_test_score r = Return 0%Q) /\
    (performance_metrics r = [] -> calculate_performance_score r = Return 0%Q) /\
    (integration_tests r = [] -> calculate_integration_score r = Return 0%Q).
Proof.
  intros r. split; [|repeat split].
  - destruct (calculate_score_returns r)
      as (m & b & t & p & i & Hm & Hb & Ht & Hp & Hi & Hr).
    repeat split; eexists; eassumption.
  - intros H. rewrite calculate_module_score_value, H. reflexivity.
  - intros H. rewrite calculate_build_score_value.
    rewrite (filter_none working) by exact H. reflexivity.
  - intros H. rewrite calculate_test_score_value.
    rewrite (filter_none exists_) by exact H. reflexivity.
  - intros H. rewrite calculate_performance_score_value, H. reflexivity.
  - intros H. rewrite calculate_integration_score_value, H. reflexivity.
Qed.

(** ** The overall score *)

Lemma py_sum_weighted_scores (m b t p i : Q) :
  (py_sum (weighted_scores m b t p i)
   == 0.30 * m + 0.20 * b + 0.20 * t + 0.15 * p + 0.15 * i)%Q.
Proof.
  unfold py_sum, weighted_scores. cbn [app fold_left]. ring.
Qed.

(** C1: the overall score is the weighted sum of the five category scores
    with weights 0.30, 0.20, 0.20, 0.15, 0.15 (which add up to 1), for every
    five scores and so for those the aggregator computes from a result;
    scores 50, 50, 50, 50, 50 give 50 and scores 100, 0, 0, 0, 0 give 30,
    over the rationals and also when the sum is evaluated in binary64. *)
Theorem overall_score_is_weighted_sum :
  (forall m b t p i : Q,
      py_sum (weighted_scores m b t p i)
      == 0.30 * m + 0.20 * b + 0.20 * t + 0.15 * p + 0.15 * i)%Q /\
  (forall r : AssessmentResult,
      exists m b t p i r',
        calculate_module_score r = Return m /\
        calculate_build_score r = Return b /\
        calculate_test_score r = Return t /\
        calculate_performance_score r = Return p /\
        calculate_integration_score r = Return i /\
        calculate_score_and_recommendations r = Return r' /\
        (overall_score r'
         == 0.30 * m + 0.20 * b + 0.20 * t + 0.15 * p + 0.15 * i)%Q) /\
  (py_sum (weighted_scores 50 50 50 50 50) == 50)%Q /\
  (py_sum (weighted_scores 100 0 0 0 0) == 30)%Q /\
  (0.30 + 0.20 + 0.20 + 0.15 + 0.15 == 1)%Q /\
  Binary64.py_sum (Binary64.weighted_scores 50 50 50 50 50) = 50%float /\
  Binary64.py_sum (Binary64.weighted_scores 100 0 0 0 0) = 30%float.
Proof.
  split; [exact py_sum_weighted_scores|]. split; [|repeat split].
  intros r.
  destruct (calculate_score_returns r)
    as (m & b & t & p & i & Hm & Hb & Ht & Hp & Hi & Hr).
  exists m, b, t, p, i. eexists. repeat split; try eassumption.
  cbn [overall_score set_recommendations set_overall_score].
  apply py_sum_weighted_scores.
Qed.

(** ** Recommendations *)

Lemma Qltb_lt (a b : Q) : Qltb a b = true <-> (a < b)%Q.
Proof. unfold Qltb, Qlt. apply Z.ltb_lt. Qed.

Lemma Qltb_dec (a b : Q) :
  Qltb a b = if Qlt_le_dec a b then true else false.
Proof.
  destruct (Qlt_le_dec a b) as [H|H].
  - now apply Qltb_lt.
  - destruct (Qltb a b) eqn:E; [|reflexivity].
    apply Qltb_lt in E. exfalso. exact (Qlt_not_le _ _ E H).
Qed.

Lemma Qltb_proper (a a' b : Q) : (a == a')%Q -> Qltb a b = Qltb a' b.
Proof.
  intros H. destruct (Qltb a b) eqn:E1, (Qltb a' b) eqn:E2; try reflexivity.
  - apply Qltb_lt in E1. rewrite H in E1. apply Qltb_lt in E1. congruence.
  - apply Qltb_lt in E2. rewrite <- H in E2. apply Qltb_lt in E2. congruence.
Qed.

Lemma derive_recommendations_spec (m b t p i : Q) :
  derive_recommendations m b t p i = spec_recommendations m b t p i.
Proof.
  unfold derive_recommendations, spec_recommendations.
  rewrite !Qltb_dec.
  destruct (Qlt_le_dec m 80), (Qlt_le_dec b 90), (Qlt_le_dec t 70),
    (Qlt_le_dec p 60), (Qlt_le_dec i 50); reflexivity.
Qed.

Lemma spec_recommendations_In (m b t p i : Q) :
  (In rec_module (spec_recommendations m b t p i) <-> (m < 80)%Q) /\
  (In rec_build (spec_recommendations m b t p i) <-> (b < 90)%Q) /\
  (In rec_test (spec_recommendations m b t p i) <-> (t < 70)%Q) /\
  (In rec_perf (spec_recommendations m b t p i) <-> (p < 60)%Q) /\
  (In rec_integration (spec_recommendations m b t p i) <-> (i < 50)%Q).
Proof.
  unfold spec_recommendations.
  destruct (Qlt_le_dec m 80), (Qlt_le_dec b 90), (Qlt_le_dec t 70),
    (Qlt_le_dec p 60), (Qlt_le_dec i 50);
    repeat split; intros H; cbn [app In] in *;
    try assumption; try absurd_threshold; try tauto;
    repeat (destruct H as [H|H]; [try discriminate H|]);
    try contradiction; try assumption.
Qed.

(** C7: the recommendation list is a function of the five category scores:
    it holds, in this order, the module recommendation iff the module score
    is below 80, the build one iff the build score is below 90, the test one
    iff the test score is below 70, the benchmark one iff the benchmark score
    is below 60 and the scenario one iff the scenario score is below 50, each
    test made on its own; equal scores give the same list, and this list is
    what the aggregator stores in the result. *)
Theorem recommendations_follow_thresholds :
  (forall m b t p i : Q,
      derive_recommendations m b t p i = spec_recommendations m b t p i /\
      (In rec_module (derive_recommendations m b t p i) <-> (m < 80)%Q) /\
      (In rec_build (derive_recommendations m b t p i) <-> (b < 90)%Q) /\
      (In rec_test (derive_recommendations m b t p i) <-> (t < 70)%Q) /\
      (In rec_perf (derive_recommendations m b t p i) <-> (p < 60)%Q) /\
      (In rec_integration (derive_recommendations m b t p i) <-> (i < 50)%Q)) /\
  (forall m b t p i m' b' t' p' i' : Q,
      (m == m')%Q -> (b == b')%Q -> (t == t')%Q -> (p == p')%Q -> (i == i')%Q ->
      derive_recommendations m b t p i = derive_recommendations m' b' t' p' i') /\
  (forall r : AssessmentResult,
      exists m b t p i r',
        calculate_module_score r = Return m /\
        calculate_build_score r = Return b /\
        calculate_test_score r = Return t /\
        calculate_performance_score r = Return p /\
        calculate_integration_score r = Return i /\
        calculate_score_and_recommendations r = Return r' /\
        recommendations r' = spec_recommendations m b t p i).
Proof.
  split; [|split].
  - intros m b t p i. rewrite derive_recommendations_spec.
    split; [reflexivity|]. apply spec_recommendations_In.
  - intros m b t p i m' b' t' p' i' Hm Hb Ht Hp Hi.
    unfold derive_recommendations.
    now rewrite (Qltb_proper m m' 80 Hm), (Qltb_proper b b' 90 Hb),
      (Qltb_proper t t' 70 Ht), (Qltb_proper p p' 60 Hp), (Qltb_proper i i' 50 Hi).
  - intros r.
    destruct (calculate_score_returns r)
      as (m & b & t & p & i & Hm & Hb & Ht & Hp & Hi & Hr).
    exists m, b, t, p, i. eexists. repeat split; try eassumption.
    cbn [recommendations set_recommendations].
    apply derive_recommendations_spec.
Qed.


(** ** Phases that leave the module dictionaries alone *)

Lemma all_statuses_ext (r r' : AssessmentResult) :
  (forall g, group_modules g r' = group_modules g r) ->
  all_statuses r' = all_statuses r.
Proof.
  intros H. unfold all_statuses.
  now rewrite (H Framework : framework_modules r' = _),
              (H Business : business_modules r' = _),
              (H Support : support_modules r' = _).
Qed.

Lemma registries_modules (r : AssessmentResult) (g : ModuleGroup) :
  group_modules g (run_integration_tests (run_performance_tests r)) = group_modules g r.
Proof. now destruct g. Qed.

Lemma calculate_score_modules (r r' : AssessmentResult) (g : ModuleGroup) :
  calculate_score_and_recommendations r = Return r' ->
  group_modules g r' = group_modules g r.
Proof.
  unfold calculate_score_and_recommendations, exc_bind.
  destruct (calculate_module_score r); [|discriminate].
  destruct (calculate_build_score r); [|discriminate].
  destruct (calculate_test_score r); [|discriminate].
  destruct (calculate_performance_score r); [|discriminate].
  destruct (calculate_integration_score r); [|discriminate].
  intros [= <-]. now destruct g.
Qed.

Lemma option_map_id {A : Type} (o : option A) : option_map (fun a => a) o = o.
Proof. now destruct o. Qed.

Lemma check_compilation_get (build : BuildOutcome) (r : AssessmentResult)
    (g : ModuleGroup) (n : string) :
  dict_get (group_modules g (fst (check_compilation build r))) n =
  option_map (build_effect build) (dict_get (group_modules g r) n).
Proof.
  unfold build_effect.
  destruct build as [code err| |msg]; cbn [check_compilation fst].
  - destruct (code =? 0)%Z; cbn [negb fst];
      now rewrite group_modules_update, dict_get_update_values.
  - now rewrite option_map_id.
  - now rewrite option_map_id.
Qed.

Lemma check_test_coverage_get (r : AssessmentResult) (g : ModuleGroup) (n : string) :
  dict_get (group_modules g (check_test_coverage r)) n =
  option_map estimate_coverage (dict_get (group_modules g r) n).
Proof.
  unfold check_test_coverage.
  now rewrite group_modules_update, dict_get_update_values.
Qed.

Lemma dict_update_values_id {V : Type} (d : dict V) :
  dict_update_values (fun v => v) d = d.
Proof.
  unfold dict_update_values. induction d as [|[k v] d IH]; simpl; [reflexivity|].
  now rewrite IH.
Qed.

Lemma check_compilation_modules (build : BuildOutcome) (r : AssessmentResult)
    (g : ModuleGroup) :
  group_modules g (fst (check_compilation build r)) =
  dict_update_values (build_effect build) (group_modules g r).
Proof.
  unfold build_effect.
  destruct build as [code err| |msg]; cbn [check_compilation fst].
  - destruct (code =? 0)%Z; cbn [negb fst]; apply group_modules_update.
  - now rewrite dict_update_values_id.
  - now rewrite dict_update_values_id.
Qed.

Lemma all_statuses_groups (r : AssessmentResult) :
  all_statuses r =
  (dict_values (group_modules Framework r) ++ dict_values (group_modules Business r)
     ++ dict_values (group_modules Support r))%list.
Proof. reflexivity. Qed.

(** ** The shape of a run *)

Lemma before_scoring_modules (h : Host) (root : string)
    (build : BuildOutcome) (r : AssessmentResult) (g : ModuleGroup) :
  group_modules g (before_scoring h root build r) =
  dict_update_values (final_of build)
    (group_modules g (fst (check_module_completeness h root r))).
Proof.
  unfold before_scoring. rewrite registries_modules.
  unfold check_test_coverage.
  rewrite group_modules_update, check_compilation_modules.
  unfold final_of, dict_update_values. rewrite map_map. reflexivity.
Qed.

Lemma run_assessment_on_raised (h : Host) (root : string) (build : BuildOutcome)
    (r : AssessmentResult) (e : PyExc) :
  snd (check_module_completeness h root r) = Some e ->
  run_assessment_on h root build r =
  on_error e (fst (check_module_completeness h root r)).
Proof.
  unfold run_assessment_on.
  destruct (check_module_completeness h root r) as [r1 [e1|]]; cbn [fst snd].
  - now intros [= ->].
  - discriminate.
Qed.

Lemma run_assessment_on_returned (h : Host) (root : string) (build : BuildOutcome)
    (r : AssessmentResult) :
  snd (check_module_completeness h root r) = None ->
  exists m b t p i,
    calculate_module_score (before_scoring h root build r) = Return m /\
    calculate_build_score (before_scoring h root build r) = Return b /\
    calculate_test_score (before_scoring h root build r) = Return t /\
    calculate_performance_score (before_scoring h root build r) = Return p /\
    calculate_integration_score (before_scoring h root build r) = Return i /\
    run_assessment_on h root build r =
      set_recommendations (derive_recommendations m b t p i)
        (set_overall_score (py_sum (weighted_scores m b t p i))
           (before_scoring h root build r)).
Proof.
  intros H.
  destruct (calculate_score_returns (before_scoring h root build r))
    as (m & b & t & p & i & Hm & Hb & Ht & Hp & Hi & Hr).
  exists m, b, t, p, i. repeat split; try assumption.
  unfold run_assessment_on, before_scoring in *.
  destruct (check_module_completeness h root r) as [r1 [e1|]]; cbn [fst snd] in *;
    [discriminate|].
  cbv zeta. now rewrite Hr.
Qed.

Lemma run_assessment_on_modules (h : Host) (root : string)
    (build : BuildOutcome) (r : AssessmentResult) (g : ModuleGroup) :
  group_modules g (run_assessment_on h root build r) =
  match snd (check_module_completeness h root r) with
  | None =>
      dict_update_values (final_of build)
        (group_modules g (fst (check_module_completeness h root r)))
  | Some _ => group_modules g (fst (check_module_completeness h root r))
  end.
Proof.
  destruct (snd (check_module_completeness h root r)) as [e|] eqn:E.
  - rewrite (run_assessment_on_raised h root build r e E). now destruct g.
  - destruct (run_assessment_on_returned h root build r E)
      as (m & b & t & p & i & _ & _ & _ & _ & _ & ->).
    rewrite <- before_scoring_modules. now destruct g.
Qed.

Lemma after_registries_before_scoring (h : Host) (root : string)
    (build : BuildOutcome) (ts : string) :
  after_registries h root build ts =
  before_scoring h root build (initial_result ts).
Proof.
  unfold after_registries, after_coverage, after_build, after_probing, before_scoring.
  reflexivity.
Qed.

Lemma all_statuses_after_registries (h : Host) (root : string)
    (build : BuildOutcome) (ts : string) :
  all_statuses (after_registries h root build ts) =
  map (final_of build) (all_statuses (after_probing h root ts)).
Proof.
  rewrite after_registries_before_scoring.
  rewrite (all_statuses_groups (before_scoring _ _ _ _)).
  rewrite !before_scoring_modules, !dict_values_update_values, <- !map_app.
  reflexivity.
Qed.

(** The statuses when the first run ends: those of phase 1 after the build
    check and the coverage estimate when phase 1 returned, and those of
    phase 1 as they are when it raised. *)
Lemma all_statuses_run_assessment (h : Host) (root : string)
    (build : BuildOutcome) (ts : string) :
  all_statuses (run_assessment h root build ts) =
  if probing_returned h root ts
  then map (final_of build) (all_statuses (after_probing h root ts))
  else all_statuses (after_probing h root ts).
Proof.
  unfold run_assessment, probing_returned, probing_error, after_probing.
  rewrite (all_statuses_groups (run_assessment_on _ _ _ _)).
  rewrite !run_assessment_on_modules.
  destruct (snd (check_module_completeness h root (initial_result ts))).
  - reflexivity.
  - rewrite !dict_values_update_values, <- !map_app. reflexivity.
Qed.

(** ** The build flag *)

Lemma mark_compilation_buildable_ok (b : bool) (s : ModuleStatus) :
  buildable_ok s -> buildable_ok (mark_compilation b s).
Proof.
  destruct s as [n p e m c t q i].
  unfold buildable_ok, mark_compilation. simpl. intros H.
  destruct e, m; simpl; auto.
  destruct b; simpl; auto.
Qed.

Lemma estimate_coverage_buildable_ok (s : ModuleStatus) :
  buildable_ok s -> buildable_ok (estimate_coverage s).
Proof.
  unfold buildable_ok, estimate_coverage. now destruct (has_tests s).
Qed.

Lemma check_compilation_invariant (build : BuildOutcome) (r : AssessmentResult) :
  buildable_invariant r -> buildable_invariant (fst (check_compilation build r)).
Proof.
  unfold buildable_invariant. intros H.
  destruct build as [code err| |msg]; simpl; try exact H.
  assert (Hm : Forall buildable_ok
                 (all_statuses (update_all_statuses (mark_compilation (code =? 0)%Z) r))).
  { rewrite all_statuses_update. apply Forall_map.
    eapply Forall_impl; [|exact H]. intros s. apply mark_compilation_buildable_ok. }
  now destruct (code =? 0)%Z.
Qed.

Lemma check_test_coverage_invariant (r : AssessmentResult) :
  buildable_invariant r -> buildable_invariant (check_test_coverage r).
Proof.
  unfold buildable_invariant, check_test_coverage. intros H.
  rewrite all_statuses_update. apply Forall_map.
  eapply Forall_impl; [|exact H]. intros s. apply estimate_coverage_buildable_ok.
Qed.

Lemma after_probing_not_compilable (h : Host) (root ts : string) :
  Forall (fun s => compilable s = false) (all_statuses (after_probing h root ts)).
Proof.
  apply after_probing_Forall.
  - intros n p s H.
    destruct (analyze_module_inv h n p s H)
      as [[_ ->]|(pom & src_main & src_test & _ & _ & _ & _ & _ & ->)]; reflexivity.
  - reflexivity.
Qed.

(** C2: at every point of the pipeline (after probing, after the build
    check, after the coverage estimate, at the end of [run_assessment]) and
    for every outcome of the external build, a status whose [compilable] is
    true has [exists] and [has_pom] true; this holds also of the statuses a
    phase 1 that raised has left. *)
Theorem buildable_implies_exists_and_pom :
  forall (h : Host) (root : string) (build : BuildOutcome) (ts : string),
    buildable_invariant (after_probing h root ts) /\
    buildable_invariant (after_build h root build ts) /\
    buildable_invariant (after_coverage h root build ts) /\
    buildable_invariant (run_assessment h root build ts).
Proof.
  intros h root build ts.
  assert (H1 : buildable_invariant (after_probing h root ts)).
  { unfold buildable_invariant.
    eapply Forall_impl; [|apply after_probing_not_compilable].
    unfold buildable_ok. intros s Hs Hc. congruence. }
  assert (H2 : buildable_invariant (after_build h root build ts))
    by (apply check_compilation_invariant; exact H1).
  assert (H3 : buildable_invariant (after_coverage h root build ts))
    by (apply check_test_coverage_invariant; exact H2).
  repeat split; try assumption.
  unfold buildable_invariant. rewrite all_statuses_run_assessment.
  destruct (probing_returned h root ts); [|exact H1].
  apply Forall_map. eapply Forall_impl; [|exact H1].
  intros s Hs. unfold final_of.
  apply estimate_coverage_buildable_ok.
  destruct build; cbn [build_effect];
    [apply mark_compilation_buildable_ok|..]; exact Hs.
Qed.

(** ** Issues recorded by phase 1 *)


(** A status stored under a key of phase 1 other than the two walk keys is
    one the probe returned for that name. *)
Lemma after_probing_stored_probe (h : Host) (root ts : string) (g : ModuleGroup)
    (n : string) (s : ModuleStatus) :
  dict_get (group_modules g (after_probing h root ts)) n = Some s ->
  n <> "test-framework" -> n <> "admin-console" ->
  exists p, resolved_location h root g n = Some p /\ analyze_module h n p = Return s.
Proof.
  intros H Htf Hac. unfold after_probing in H.
  destruct g; cbn [group_modules] in H.
  - rewrite probing_framework in H.
    destruct (store_each_get (framework_probe h root) expected_framework_modules
                (framework_modules (initial_result ts)) n) as [E|(Hin & v & Hv & E)];
      rewrite E in H; [discriminate|].
    injection H as <-. exists (module_path h root "frame" n). split; [|exact Hv].
    cbn [resolved_location].
    replace (existsb (String.eqb n) expected_framework_modules) with true; [reflexivity|].
    symmetry. apply existsb_exists. exists n. split; [exact Hin|apply String.eqb_refl].
  - rewrite probing_business in H.
    destruct (snd (store_each (framework_probe h root) expected_framework_modules
                     (framework_modules (initial_result ts)))); [discriminate|].
    destruct (store_each_get (business_probe h root) expected_business_modules
                (business_modules (initial_result ts)) n) as [E|(Hin & v & Hv & E)];
      rewrite E in H; [discriminate|].
    injection H as <-. exists (module_path h root "business" n). split; [|exact Hv].
    cbn [resolved_location].
    replace (existsb (String.eqb n) expected_business_modules) with true; [reflexivity|].
    symmetry. apply existsb_exists. exists n. split; [exact Hin|apply String.eqb_refl].
  - rewrite probing_support in H.
    destruct (snd (store_each (framework_probe h root) expected_framework_modules
                     (framework_modules (initial_result ts)))); [discriminate|].
    destruct (snd (store_each (business_probe h root) expected_business_modules
                     (business_modules (initial_result ts)))); [discriminate|].
    destruct (store_each_get (support_probe h root) support_keys
                (support_modules (initial_result ts)) n) as [E|(Hin & v & Hv & E)];
      rewrite E in H; [discriminate|].
    injection H as <-. exists (path_div h root n). cbn [resolved_location].
    destruct Hin as [<-|[<-|[<-|[<-|[]]]]]; try congruence.
    + split; [reflexivity|exact Hv].
    + split; [reflexivity|exact Hv].
Qed.

(** The status stored under one of the two walk keys. *)
Lemma after_probing_stored_walk (h : Host) (root ts : string) (n : string)
    (s : ModuleStatus) :
  dict_get (support_modules (after_probing h root ts)) n = Some s ->
  (n = "test-framework" ->
   s = ModuleStatus_found "test-framework" "distributed"
         (fst (walk_result h root)) "测试框架模块缺失") /\
  (n = "admin-console" ->
   s = ModuleStatus_found "admin-console" "not_found"
         (snd (walk_result h root)) "后台管理控制台缺失").
Proof.
  intros H. unfold after_probing in H. rewrite probing_support in H.
  destruct (snd (store_each (framework_probe h root) expected_framework_modules
                   (framework_modules (initial_result ts)))); [discriminate|].
  destruct (snd (store_each (business_probe h root) expected_business_modules
                   (business_modules (initial_result ts)))); [discriminate|].
  destruct (store_each_get (support_probe h root) support_keys
              (support_modules (initial_result ts)) n) as [E|(Hin & v & Hv & E)];
    rewrite E in H; [discriminate|].
  injection H as <-.
  split; intros ->; cbn in Hv; now injection Hv.
Qed.

(** C3 as stated fails: when the directory walk finds a path that contains
    "testing", the status of test-framework has [exists] true, [has_pom] and
    [has_tests] false, and no issue. *)
Lemma issues_missing_for_walked_support_module :
  ~ Forall failing_checks_reported
      (all_statuses (after_probing host_testing_only "/srv/game" "2025-05-29 10:00:00")).
Proof.
  intros H. rewrite Forall_forall in H.
  specialize (H (ModuleStatus_found "test-framework" "distributed" true
                   "测试框架模块缺失")).
  apply H.
  - vm_compute. do 22 right. left. reflexivity.
  - right. left. reflexivity.
  - reflexivity.
Qed.

(** C3, amended: every status the probe [_analyze_module] has stored (for a
    framework or business module, for launcher or common of the support
    group) has a non-empty issue list whenever [exists], [has_pom] or
    [has_tests] is false.  Its issues are exactly the directory-missing
    message, with [has_pom] and [has_tests] false, when [exists] is false
    (the later checks are skipped); otherwise they are, in this order, the
    missing-manifest message iff [has_pom] is false, the source-layout
    message iff the main source directory is absent, and the missing-tests
    message iff [has_tests] is false.  The two support statuses built from
    the directory walk (test-framework, admin-console) always have [has_pom]
    and [has_tests] false; their issues are empty when [exists] is true and
    exactly their own module-missing message when it is false. *)
Theorem probe_reports_failing_checks :
  forall (h : Host) (root ts : string),
    (forall g n s,
        dict_get (group_modules g (after_probing h root ts)) n = Some s ->
        n <> "test-framework" -> n <> "admin-console" ->
        failing_checks_reported s /\
        ((exists_ s = false /\ has_pom s = false /\ has_tests s = false /\
          issues s = ["模块目录不存在"]) \/
         (exists_ s = true /\
          exists src_main,
            fs_exists h (src_main_of h (path s)) = Return src_main /\
            issues s =
              ((if has_pom s then [] else ["缺少pom.xml文件"])
               ++ (if src_main then [] else ["缺少标准Maven源码结构"])
               ++ (if has_tests s then [] else ["缺少测试代码"]))%list))) /\
    (forall s,
        dict_get (support_modules (after_probing h root ts)) "test-framework" = Some s ->
        has_pom s = false /\ has_tests s = false /\
        issues s = (if exists_ s then [] else ["测试框架模块缺失"])) /\
    (forall s,
        dict_get (support_modules (after_probing h root ts)) "admin-console" = Some s ->
        has_pom s = false /\ has_tests s = false /\
        issues s = (if exists_ s then [] else ["后台管理控制台缺失"])).
Proof.
  intros h root ts. split; [|split].
  - intros g n s H Htf Hac.
    destruct (after_probing_stored_probe h root ts g n s H Htf Hac) as (p & _ & Hp).
    destruct (analyze_module_inv h n p s Hp)
      as [[_ ->]|(pom & src_main & src_test & _ & _ & _ & Hmain & _ & ->)].
    + split; [intros _; discriminate|]. left. repeat split.
    + split.
      * unfold failing_checks_reported. cbn [exists_ has_pom has_tests issues].
        unfold probe_issues.
        intros [E|[E|E]]; try discriminate; subst;
          destruct src_main; try destruct pom; try destruct src_test; discriminate.
      * right. split; [reflexivity|]. exists src_main. split; [exact Hmain|reflexivity].
  - intros s H. destruct (after_probing_stored_walk h root ts _ s H) as [E _].
    rewrite (E eq_refl). now destruct (fst (walk_result h root)).
  - intros s H. destruct (after_probing_stored_walk h root ts _ s H) as [_ E].
    rewrite (E eq_refl). now destruct (snd (walk_result h root)).
Qed.

(** ** Modules whose directory is missing *)

Lemma existsb_eqb_In (k : string) (l : list string) :
  existsb (String.eqb k) l = true -> In k l.
Proof.
  intros H. apply existsb_exists in H. destruct H as (x & Hx & E).
  apply String.eqb_eq in E. now subst.
Qed.


(** What the first run ends with under a key: what phase 1 stored, after
    the build check and the coverage estimate when phase 1 returned. *)
Lemma run_assessment_get (h : Host) (root : string) (build : BuildOutcome)
    (ts : string) (g : ModuleGroup) (n : string) :
  dict_get (group_modules g (run_assessment h root build ts)) n =
  if probing_returned h root ts
  then option_map (final_of build)
         (dict_get (group_modules g (after_probing h root ts)) n)
  else dict_get (group_modules g (after_probing h root ts)) n.
Proof.
  unfold run_assessment, probing_returned, probing_error, after_probing.
  rewrite run_assessment_on_modules.
  destruct (snd (check_module_completeness h root (initial_result ts)));
    [reflexivity|apply dict_get_update_values].
Qed.




(** ** The build check *)

(** C5: a build that returns a non-zero code sets [compilable] to false and
    appends the build-failed issue on every status with [exists] and
    [has_pom], and leaves every other status as it is; a build that times out
    or raises another error changes no status at all (no flag, no issue) and
    only sends an ERROR record to the log. *)
Theorem build_failure_marks_modules_timeout_does_not :
  forall (r : AssessmentResult),
    (forall code stderr g n s,
        code <> 0%Z ->
        dict_get (group_modules g r) n = Some s ->
        dict_get (group_modules g (fst (check_compilation (Completed code stderr) r))) n =
          Some (if exists_ s && has_pom s
                then mkModuleStatus (name s) (path s) (exists_ s) (has_pom s) false
                       (has_tests s) (test_coverage s) (issues s ++ ["编译失败"])%list
                else s)) /\
    (forall code stderr g,
        dict_keys (group_modules g (fst (check_compilation (Completed code stderr) r))) =
        dict_keys (group_modules g r)) /\
    (fst (check_compilation TimeoutExpired r) = r /\
     snd (check_compilation TimeoutExpired r) =
       [(INFO, "检查项目编译状态..."); (ERROR, "编译超时")]) /\
    (forall msg,
        fst (check_compilation (OtherError msg) r) = r /\
        snd (check_compilation (OtherError msg) r) =
          [(INFO, "检查项目编译状态..."); (ERROR, "编译检查出错: " ++ msg)]).
Proof.
  intros r. repeat split.
  - intros code stderr g n s Hcode Hget.
    rewrite check_compilation_get, Hget. cbn [option_map build_effect].
    apply Z.eqb_neq in Hcode. rewrite Hcode.
    unfold mark_compilation. destruct (exists_ s && has_pom s); reflexivity.
  - intros code stderr g. cbn [check_compilation].
    destruct (code =? 0)%Z; cbn [negb fst];
      now rewrite group_modules_update, dict_keys_update_values.
Qed.

(** ** The coverage estimate *)

(** C8: after the coverage phase every status has [test_coverage] 60 when
    [has_tests] is true and 0 otherwise (in particular every status with
    [exists] true), every other field of the status is as before, the keys of
    the three dictionaries are as before, and so is the rest of the result. *)
Theorem coverage_phase_sets_only_coverage :
  forall (r : AssessmentResult),
    (forall g n s,
        dict_get (group_modules g r) n = Some s ->
        dict_get (group_modules g (check_test_coverage r)) n =
          Some (mkModuleStatus (name s) (path s) (exists_ s) (has_pom s)
                  (compilable s) (has_tests s)
                  (if has_tests s then 60 else 0) (issues s))) /\
    (forall g,
        dict_keys (group_modules g (check_test_coverage r)) =
        dict_keys (group_modules g r)) /\
    performance_metrics (check_test_coverage r) = performance_metrics r /\
    integration_tests (check_test_coverage r) = integration_tests r /\
    overall_score (check_test_coverage r) = overall_score r /\
    recommendations (check_test_coverage r) = recommendations r /\
    timestamp (check_test_coverage r) = timestamp r.
Proof.
  intros r. repeat split.
  - intros g n s Hget. rewrite check_test_coverage_get, Hget.
    cbn [option_map]. unfold estimate_coverage, set_test_coverage.
    destruct (has_tests s); reflexivity.
  - intros g. unfold check_test_coverage.
    now rewrite group_modules_update, dict_keys_update_values.
Qed.


(** ** The module groups and the module score *)

Lemma filter_length_le {A : Type} (p : A -> bool) (l : list A) :
  length (filter p l) <= length l.
Proof.
  induction l as [|x l IH]; simpl; [lia|].
  destruct (p x); simpl; lia.
Qed.

Lemma filter_map_same {A : Type} (p : A -> bool) (f : A -> A) (l : list A) :
  (forall x, p (f x) = p x) ->
  length (filter p (map f l)) = length (filter p l).
Proof.
  intros H. induction l as [|x l IH]; simpl; [reflexivity|].
  rewrite H. destruct (p x); simpl; now rewrite IH.
Qed.

Lemma working_mark_compilation (b : bool) (s : ModuleStatus) :
  working (mark_compilation b s) = working s.
Proof.
  unfold mark_compilation. destruct (exists_ s && has_pom s) eqn:E; [|reflexivity].
  now destruct b.
Qed.

Lemma working_estimate_coverage (s : ModuleStatus) :
  working (estimate_coverage s) = working s.
Proof. unfold estimate_coverage. now destruct (has_tests s). Qed.

Lemma working_found (n p : string) (b : bool) (m : string) :
  working (ModuleStatus_found n p b m) = false.
Proof. apply andb_false_r. Qed.

Lemma working_count_bound (l : list ModuleStatus) (a b tf ac : ModuleStatus) :
  working tf = false -> working ac = false ->
  length (filter working (l ++ [a; b; tf; ac])) <= length l + 2.
Proof.
  intros Htf Hac. rewrite filter_app, length_app.
  pose proof (filter_length_le working l) as Hl.
  cbn [filter]. rewrite Htf, Hac.
  destruct (working a), (working b); cbn [length]; lia.
Qed.

Lemma working_final_of (build : BuildOutcome) (s : ModuleStatus) :
  working (final_of build s) = working s.
Proof.
  unfold final_of. rewrite working_estimate_coverage.
  destruct build; cbn [build_effect]; [apply working_mark_compilation|reflexivity..].
Qed.

Lemma working_after_probing (h : Host) (root ts : string) :
  probing_error h root ts = None ->
  length (all_statuses (after_probing h root ts)) = 24 /\
  length (filter working (all_statuses (after_probing h root ts))) <= 22.
Proof.
  intros Herr. unfold all_statuses, dict_values.
  rewrite (after_probing_framework h root ts Herr),
    (after_probing_business h root ts Herr), (after_probing_support h root ts Herr).
  cbn [map snd]. rewrite app_assoc. split.
  - rewrite !length_app, !length_map. reflexivity.
  - eapply Nat.le_trans.
    + apply working_count_bound; apply working_found.
    + rewrite !length_app, !length_map.
      unfold expected_framework_modules, expected_business_modules.
      cbn [length]. lia.
Qed.

Lemma working_after_registries (h : Host) (root : string)
    (build : BuildOutcome) (ts : string) :
  probing_error h root ts = None ->
  length (all_statuses (after_registries h root build ts)) = 24 /\
  length (filter working (all_statuses (after_registries h root build ts))) <= 22.
Proof.
  intros Herr. destruct (working_after_probing h root ts Herr) as [Hlen Hw].
  rewrite all_statuses_after_registries.
  rewrite length_map, (filter_map_same working) by apply working_final_of.
  split; assumption.
Qed.

Lemma percentage_bound (w : nat) :
  w <= 22 ->
  percentage w 24 = (Q_of_nat w / 24 * 100)%Q /\
  (Q_of_nat w / 24 * 100 <= 22 / 24 * 100)%Q.
Proof.
  intros H. split; [reflexivity|].
  unfold Qle, Qdiv, Qmult, Qinv, Q_of_nat. simpl. lia.
Qed.





(** ** Reading the structured report back *)

Lemma opt_all_map_Some {A B : Type} (f : A -> option B) (g : A -> B) (l : list A) :
  (forall a, f a = Some (g a)) -> opt_all (map f l) = Some (map g l).
Proof.
  intros H. induction l as [|a l IH]; cbn [map opt_all]; [reflexivity|].
  rewrite H, IH. reflexivity.
Qed.

Lemma as_list_str (l : list string) : as_list as_str (JList (map JStr l)) = Some l.
Proof.
  unfold as_list. rewrite map_map.
  rewrite (opt_all_map_Some _ (fun s => s)) by reflexivity.
  now rewrite map_id.
Qed.

Lemma read_status_asdict (s : ModuleStatus) : read_status (asdict_status s) = Some s.
Proof.
  destruct s as [n p e m c t q i].
  unfold read_status, asdict_status.
  cbn [jget dict_get String.eqb Ascii.eqb Bool.eqb opt_bind as_str as_bool as_num
       name path exists_ has_pom compilable has_tests test_coverage issues].
  rewrite as_list_str. reflexivity.
Qed.

Lemma read_metric_asdict (m : PerformanceMetrics) : read_metric (asdict_metric m) = Some m.
Proof. destruct m. reflexivity. Qed.

Lemma as_dict_roundtrip {A : Type} (f : Json -> option A) (g : A -> Json) (d : dict A) :
  (forall a, f (g a) = Some a) ->
  as_dict f (JDict (map (fun kv => (fst kv, g (snd kv))) d)) = Some d.
Proof.
  intros H. unfold as_dict. rewrite map_map.
  rewrite (opt_all_map_Some _ (fun kv => kv)).
  - now rewrite map_id.
  - intros [k a]. cbn [fst snd]. now rewrite H.
Qed.

Lemma read_report_data (r : AssessmentResult) : read_report (report_data r) = Some r.
Proof.
  destruct r as [fw biz sup metrics tests score recs ts].
  unfold read_report, report_data, modules_json.
  cbn [jget dict_get String.eqb Ascii.eqb Bool.eqb opt_bind as_str as_num
       framework_modules business_modules support_modules performance_metrics
       integration_tests overall_score recommendations timestamp].
  rewrite !(as_dict_roundtrip read_status asdict_status) by apply read_status_asdict.
  rewrite (as_dict_roundtrip as_bool JBool) by reflexivity.
  unfold as_list at 1. rewrite map_map.
  rewrite (opt_all_map_Some _ (fun m => m)) by apply read_metric_asdict.
  rewrite map_id, as_list_str. reflexivity.
Qed.

(** C9: the structured report keeps every field: reading the value that
    [generate_report] builds gives back the very result it was built from
    (the statuses of the three groups, the benchmark entries, the scenario
    outcomes, the overall score, the recommendations in order and the
    timestamp), so two results with the same report are the same result. *)
Theorem report_round_trip :
  (forall r : AssessmentResult, read_report (report_data r) = Some r) /\
  (forall r1 r2 : AssessmentResult, report_data r1 = report_data r2 -> r1 = r2).
Proof.
  split; [exact read_report_data|].
  intros r1 r2 H.
  assert (E : Some r1 = Some r2)
    by (rewrite <- (read_report_data r1), <- (read_report_data r2), H; reflexivity).
  now injection E.
Qed.

(** ** Substring search and the directory walk *)

Lemma prefix_app (a post : string) : String.prefix a (a ++ post) = true.
Proof.
  induction a as [|c a IH]; simpl.
  - now destruct post.
  - destruct (ascii_dec c c) as [_|N]; [exact IH|now elim N].
Qed.

Lemma prefix_split (a b : string) :
  String.prefix a b = true -> exists post, b = a ++ post.
Proof.
  revert b. induction a as [|c a IH]; intros b H.
  - exists b. reflexivity.
  - destruct b as [|c' b]; simpl in H; [discriminate|].
    destruct (ascii_dec c c') as [->|_]; [|discriminate].
    destruct (IH b H) as [post ->]. exists post. reflexivity.
Qed.

Lemma str_in_unfold (needle hay : string) :
  str_in needle hay =
  if String.prefix needle hay then true
  else match hay with
       | EmptyString => false
       | String _ hay' => str_in needle hay'
       end.
Proof. now destruct hay. Qed.

Lemma str_in_contains (needle hay : string) :
  str_in needle hay = true <-> contains needle hay.
Proof.
  split.
  - induction hay as [|c hay IH]; rewrite str_in_unfold;
      destruct (String.prefix needle _) eqn:E; intros H.
    + destruct (prefix_split _ _ E) as [post Hp]. exists "", post. exact Hp.
    + discriminate.
    + destruct (prefix_split _ _ E) as [post Hp]. exists "", post. exact Hp.
    + destruct (IH H) as (pre & post & ->). exists (String c pre), post. reflexivity.
  - intros (pre & post & ->). induction pre as [|c pre IH].
    + rewrite str_in_unfold. cbn [append]. now rewrite prefix_app.
    + rewrite str_in_unfold. cbn [append].
      destruct (String.prefix needle _); [reflexivity|exact IH].
Qed.

Lemma walk_flags (h : Host) (dirs : list string) (tf ac : bool) :
  fold_left (walk_step h) dirs (tf, ac) =
  (tf || existsb (looks_like_test_framework h) dirs,
   ac || existsb (looks_like_admin_console h) dirs).
Proof.
  revert tf ac. induction dirs as [|d dirs IH]; intros tf ac; cbn [fold_left existsb].
  - now rewrite !orb_false_r.
  - replace (walk_step h (tf, ac) d)
      with (if looks_like_test_framework h d then true else tf,
            if looks_like_admin_console h d then true else ac) by reflexivity.
    rewrite IH.
    destruct (looks_like_test_framework h d), (looks_like_admin_console h d), tf, ac;
      reflexivity.
Qed.

(** X1: when phase 1 returns, the support status test-framework has
    [exists] true exactly when some directory met by the walk has
    "test-framework" or "testing" in what [str.lower()] makes of its path;
    admin-console has [exists] true exactly when some single directory has
    both "admin" and "console" in its lower-cased path (the two words in two
    different directories do not count). *)
Theorem support_detection_by_walk :
  forall (h : Host) (root ts : string),
    probing_error h root ts = None ->
    exists s_tf s_ac,
      dict_get (support_modules (after_probing h root ts)) "test-framework" = Some s_tf /\
      dict_get (support_modules (after_probing h root ts)) "admin-console" = Some s_ac /\
      (exists_ s_tf = true <->
       exists dir, In dir (fs_walk h root) /\
         (contains "test-framework" (str_lower h dir) \/
          contains "testing" (str_lower h dir))) /\
      (exists_ s_ac = true <->
       exists dir, In dir (fs_walk h root) /\
         contains "admin" (str_lower h dir) /\ contains "console" (str_lower h dir)).
Proof.
  intros h root ts Herr. rewrite (after_probing_support h root ts Herr).
  do 2 eexists. split; [reflexivity|]. split; [reflexivity|].
  cbn [exists_ ModuleStatus_found]. unfold walk_result.
  rewrite walk_flags. cbn [fst snd orb].
  rewrite !existsb_exists. split; split.
  - intros (d & Hd & H). exists d. split; [exact Hd|].
    unfold looks_like_test_framework in H. apply orb_true_iff in H.
    now rewrite <- !str_in_contains.
  - intros (d & Hd & H). exists d. split; [exact Hd|].
    unfold looks_like_test_framework. apply orb_true_iff.
    now rewrite !str_in_contains.
  - intros (d & Hd & H). exists d. split; [exact Hd|].
    unfold looks_like_admin_console in H. apply andb_true_iff in H.
    now rewrite <- !str_in_contains.
  - intros (d & Hd & H). exists d. split; [exact Hd|].
    unfold looks_like_admin_console. apply andb_true_iff.
    now rewrite !str_in_contains.
Qed.

Lemma support_detection_by_walk_witness :
  exists s_tf s_ac,
    dict_get (support_modules (after_probing host_testing_only "/srv/game" "t"))
      "test-framework" = Some s_tf /\
    dict_get (support_modules (after_probing host_testing_only "/srv/game" "t"))
      "admin-console" = Some s_ac /\
    (exists_ s_tf = true <->
     exists dir, In dir (fs_walk host_testing_only "/srv/game") /\
       (contains "test-framework" (str_lower host_testing_only dir) \/
        contains "testing" (str_lower host_testing_only dir))) /\
    (exists_ s_ac = true <->
     exists dir, In dir (fs_walk host_testing_only "/srv/game") /\
       contains "admin" (str_lower host_testing_only dir) /\
       contains "console" (str_lower host_testing_only dir)).
Proof.
  apply (support_detection_by_walk host_testing_only "/srv/game" "t").
  reflexivity.
Defined.

(** ** Phase 1 on any result *)

Lemma store_each_error_any {V : Type} (f : string -> exc V) (names : list string)
    (d d' : dict V) :
  snd (store_each f names d) = snd (store_each f names d').
Proof.
  revert d d'. induction names as [|n names IH]; intros d d'; cbn [store_each].
  - reflexivity.
  - destruct (f n); [apply IH|reflexivity].
Qed.

(** Whether phase 1 raises, and what, does not depend on the result it
    starts from. *)
Lemma probing_error_any (h : Host) (root : string) (r r' : AssessmentResult) :
  snd (check_module_completeness h root r) = snd (check_module_completeness h root r').
Proof.
  rewrite !probing_raised.
  rewrite (store_each_error_any (framework_probe h root) _ _ (framework_modules r')).
  rewrite (store_each_error_any (business_probe h root) _ _ (business_modules r')).
  rewrite (store_each_error_any (support_probe h root) _ _ (support_modules r')).
  reflexivity.
Qed.

(** X2: phase 1 is idempotent: probing a result that has just been probed
    (same host) changes nothing and ends the same way, by returning or by
    raising the same exception, whatever the result held before the first
    probing. *)
Theorem probing_twice_is_probing_once :
  forall (h : Host) (root : string) (r : AssessmentResult),
    check_module_completeness h root (fst (check_module_completeness h root r)) =
    check_module_completeness h root r.
Proof.
  intros h root r.
  pose proof (check_module_completeness_form h root r) as E.
  set (fw := store_each (framework_probe h root) expected_framework_modules
               (framework_modules r)) in *.
  set (biz := store_each (business_probe h root) expected_business_modules
                (business_modules r)) in *.
  set (sup := store_each (support_probe h root) support_keys (support_modules r)) in *.
  assert (Ifw : store_each (framework_probe h root) expected_framework_modules
                  (fst fw) = fw) by apply store_each_idempotent.
  assert (Ibiz : store_each (business_probe h root) expected_business_modules
                   (fst biz) = biz) by apply store_each_idempotent.
  assert (Isup : store_each (support_probe h root) support_keys (fst sup) = sup)
    by apply store_each_idempotent.
  rewrite E.
  destruct (snd fw) as [e|] eqn:Efw.
  - cbn [fst]. rewrite check_module_completeness_form.
    cbn [framework_modules business_modules support_modules set_framework_modules
         set_business_modules set_support_modules].
    rewrite !Ifw, Efw. destruct r; reflexivity.
  - destruct (snd biz) as [e|] eqn:Ebiz.
    + cbn [fst]. rewrite check_module_completeness_form.
      cbn [framework_modules business_modules support_modules set_framework_modules
           set_business_modules set_support_modules].
      rewrite !Ifw, !Ibiz, Efw, Ebiz. destruct r; reflexivity.
    + cbn [fst]. rewrite check_module_completeness_form.
      cbn [framework_modules business_modules support_modules set_framework_modules
           set_business_modules set_support_modules].
      rewrite !Ifw, !Ibiz, !Isup, Efw, Ebiz. destruct r; reflexivity.
Qed.

(** ** A run on any result *)

Lemma run_assessment_on_initial (h : Host) (root : string)
    (build : BuildOutcome) (ts : string) :
  run_assessment h root build ts =
  run_assessment_on h root build (initial_result ts).
Proof. reflexivity. Qed.

(** When phase 1 returns, it has stored for each module it probes the
    status its probe returned, whatever it started from. *)
Lemma probing_get (h : Host) (root : string) (r : AssessmentResult)
    (g : ModuleGroup) (n p : string) :
  snd (check_module_completeness h root r) = None ->
  resolved_location h root g n = Some p ->
  exists s,
    analyze_module h n p = Return s /\
    dict_get (group_modules g (fst (check_module_completeness h root r))) n = Some s.
Proof.
  intros Herr Hloc.
  destruct (probing_returned_loops h root r Herr) as (Hfw & Hbiz & Hsup).
  set (dflt := ModuleStatus_new "" "").
  assert (G : forall (f : string -> exc ModuleStatus) n v,
             f n = Return v -> returned_or dflt (f n) = v)
    by (intros f k v E; now rewrite E).
  destruct g; cbn [resolved_location group_modules] in *.
  - destruct (existsb (String.eqb n) expected_framework_modules) eqn:E; [|discriminate].
    injection Hloc as <-. apply existsb_eqb_In in E.
    destruct (store_each_returned (framework_probe h root)
                (fun k => returned_or dflt (framework_probe h root k))
                expected_framework_modules (framework_modules r)
                (G (framework_probe h root)) Hfw) as [Eq F].
    rewrite Forall_forall in F.
    exists (returned_or dflt (framework_probe h root n)). split; [exact (F n E)|].
    rewrite probing_framework, Eq.
    exact (dict_get_set_each_in
             (fun k => returned_or dflt (framework_probe h root k)) _ _ n E).
  - destruct (existsb (String.eqb n) expected_business_modules) eqn:E; [|discriminate].
    injection Hloc as <-. apply existsb_eqb_In in E.
    destruct (store_each_returned (business_probe h root)
                (fun k => returned_or dflt (business_probe h root k))
                expected_business_modules (business_modules r)
                (G (business_probe h root)) Hbiz) as [Eq F].
    rewrite Forall_forall in F.
    exists (returned_or dflt (business_probe h root n)). split; [exact (F n E)|].
    rewrite probing_business, Hfw, Eq.
    exact (dict_get_set_each_in
             (fun k => returned_or dflt (business_probe h root k)) _ _ n E).
  - destruct (store_each_returned (support_probe h root)
                (fun k => returned_or dflt (support_probe h root k))
                support_keys (support_modules r)
                (G (support_probe h root)) Hsup) as [Eq F].
    rewrite Forall_forall in F.
    rewrite probing_support, Hfw, Hbiz, Eq.
    destruct (String.eqb n "launcher") eqn:E1; cbn [orb] in Hloc.
    + apply String.eqb_eq in E1. subst n. injection Hloc as <-.
      exists (returned_or dflt (support_probe h root "launcher")). split.
      * apply (F "launcher"). simpl. auto.
      * apply (dict_get_set_each_in
                 (fun k => returned_or dflt (support_probe h root k))).
        simpl. auto.
    + destruct (String.eqb n "common") eqn:E2; [|discriminate].
      apply String.eqb_eq in E2. subst n. injection Hloc as <-.
      exists (returned_or dflt (support_probe h root "common")). split.
      * apply (F "common"). simpl. auto.
      * apply (dict_get_set_each_in
                 (fun k => returned_or dflt (support_probe h root k))).
        simpl. auto.
Qed.

(** X3: when phase 1 of a run returns, the status the run stores for a
    probed module (every framework and business module, launcher and common)
    is the status this run's probe returned, followed by the build check and
    the coverage estimate; it does not depend on what the result held before
    the run, so nothing of an earlier run (flags, issues) survives in it. *)
Theorem run_rebuilds_module_status :
  forall (h : Host) (root : string) (build : BuildOutcome)
         (r : AssessmentResult) (g : ModuleGroup) (n p : string),
    snd (check_module_completeness h root r) = None ->
    resolved_location h root g n = Some p ->
    exists s,
      analyze_module h n p = Return s /\
      dict_get (group_modules g (run_assessment_on h root build r)) n =
      Some (estimate_coverage (build_effect build s)).
Proof.
  intros h root build r g n p Herr Hloc.
  destruct (probing_get h root r g n p Herr Hloc) as (s & Hs & Hget).
  exists s. split; [exact Hs|].
  rewrite run_assessment_on_modules, Herr, dict_get_update_values, Hget.
  reflexivity.
Qed.

Lemma run_rebuilds_module_status_witness :
  exists s,
    analyze_module host_all_present "ecs" "/srv/game/frame/frame-ecs" = Return s /\
    dict_get (group_modules Framework
                (run_assessment_on host_all_present "/srv/game" (Completed 0 "")
                   result_with_stale_ecs)) "ecs" =
    Some (estimate_coverage (build_effect (Completed 0 "") s)).
Proof.
  apply (run_rebuilds_module_status host_all_present "/srv/game" (Completed 0 "")
           result_with_stale_ecs Framework "ecs" "/srv/game/frame/frame-ecs");
    reflexivity.
Defined.

Lemma before_scoring_metrics (h : Host) (root : string)
    (build : BuildOutcome) (r : AssessmentResult) :
  performance_metrics (before_scoring h root build r) =
  (performance_metrics r ++ benchmark_entries)%list.
Proof.
  unfold before_scoring.
  assert (E : performance_metrics
                (check_test_coverage
                   (fst (check_compilation build
                           (fst (check_module_completeness h root r))))) =
              performance_metrics r).
  { destruct (probing_rest h root r) as (H & _).
    destruct build as [code err| |msg]; cbn [check_compilation fst];
      [destruct (code =? 0)%Z|..]; exact H. }
  cbn [run_integration_tests set_integration_tests performance_metrics].
  unfold run_performance_tests, test_database_performance, test_rpc_performance,
    test_network_performance, test_actor_performance, performance_append.
  cbn [performance_metrics set_performance_metrics]. rewrite E.
  rewrite <- !app_assoc. reflexivity.
Qed.

Lemma run_assessment_on_metrics (h : Host) (root : string) (build : BuildOutcome)
    (r : AssessmentResult) :
  performance_metrics (run_assessment_on h root build r) =
  match snd (check_module_completeness h root r) with
  | None => (performance_metrics r ++ benchmark_entries)%list
  | Some _ => performance_metrics r
  end.
Proof.
  destruct (snd (check_module_completeness h root r)) as [e|] eqn:E.
  - rewrite (run_assessment_on_raised h root build r e E).
    cbn [on_error performance_metrics set_recommendations].
    apply (probing_rest h root r).
  - destruct (run_assessment_on_returned h root build r E)
      as (m & b & t & p & i & _ & _ & _ & _ & _ & ->).
    cbn [performance_metrics set_recommendations set_overall_score].
    apply before_scoring_metrics.
Qed.

(** X4: a run whose phase 1 returns appends the same five benchmark
    entries to the entries the result already has and removes none, and a
    run whose phase 1 raises leaves the entries as they are.  So a first run
    ends with the five entries when phase 1 returns (with none when it
    raises), and a second run on the same object then ends with the five
    entries twice. *)
Theorem benchmark_entries_accumulate :
  forall (h : Host) (root : string) (build : BuildOutcome) (ts : string),
    (forall r : AssessmentResult,
        performance_metrics (run_assessment_on h root build r) =
        match snd (check_module_completeness h root r) with
        | None => (performance_metrics r ++ benchmark_entries)%list
        | Some _ => performance_metrics r
        end) /\
    performance_metrics (run_assessment h root build ts) =
      (if probing_returned h root ts then benchmark_entries else []) /\
    performance_metrics
      (run_assessment_on h root build (run_assessment h root build ts)) =
      (if probing_returned h root ts
       then (benchmark_entries ++ benchmark_entries)%list else []).
Proof.
  intros h root build ts.
  split; [intros r; apply run_assessment_on_metrics|].
  assert (H0 : performance_metrics (run_assessment h root build ts) =
               (if probing_returned h root ts then benchmark_entries else [])).
  { rewrite run_assessment_on_initial, run_assessment_on_metrics.
    unfold probing_returned, probing_error.
    now destruct (snd (check_module_completeness h root (initial_result ts))). }
  split; [exact H0|].
  rewrite run_assessment_on_metrics, H0.
  rewrite (probing_error_any h root _ (initial_result ts)).
  unfold probing_returned, probing_error.
  now destruct (snd (check_module_completeness h root (initial_result ts))).
Qed.



(** ** The scenario registry *)

(** X5: phase 5 stores False for each of the nine scenarios, whatever was
    stored for it before (a scenario recorded as passed is reset), keeps the
    entry of every other key, and touches nothing else of the result. *)
Theorem scenarios_reset_to_false :
  forall (r : AssessmentResult),
    (forall k,
        dict_get (integration_tests (run_integration_tests r)) k =
        if existsb (String.eqb k) test_scenarios then Some false
        else dict_get (integration_tests r) k) /\
    (forall g, group_modules g (run_integration_tests r) = group_modules g r) /\
    performance_metrics (run_integration_tests r) = performance_metrics r /\
    overall_score (run_integration_tests r) = overall_score r /\
    recommendations (run_integration_tests r) = recommendations r /\
    timestamp (run_integration_tests r) = timestamp r /\
    integration_tests (run_integration_tests (initial_result (timestamp r))) =
      map (fun scenario => (scenario, false)) test_scenarios.
Proof.
  intros r. split; [|repeat split; intros g; now destruct g].
  intros k.
  change (integration_tests (run_integration_tests r))
    with (set_each (fun _ : string => false) test_scenarios (integration_tests r)).
  destruct (existsb (String.eqb k) test_scenarios) eqn:E.
  - apply (dict_get_set_each_in (fun _ : string => false)).
    now apply existsb_eqb_In.
  - apply dict_get_set_each_notin. intros H.
    assert (E' : existsb (String.eqb k) test_scenarios = true).
    { apply existsb_exists. exists k. split; [exact H|apply String.eqb_refl]. }
    congruence.
Qed.


(** ** The statuses at the end of a run *)

Lemma final_of_probe_ok (h : Host) (build : BuildOutcome) (n p : string)
    (s : ModuleStatus) :
  analyze_module h n p = Return s ->
  final_status_ok build (final_of build s).
Proof.
  intros Hs. unfold final_status_ok.
  destruct (analyze_module_inv h n p s Hs)
    as [[_ ->]|(pom & src_main & src_test & _ & _ & _ & _ & _ & ->)].
  - unfold final_of, build_effect, build_ok, build_failed, mark_compilation,
      estimate_coverage, missing_status, dir_missing.
    destruct build as [code err| |msg]; try destruct (code =? 0)%Z;
      final_status_case.
  - unfold final_of, build_effect, build_ok, build_failed, mark_compilation,
      estimate_coverage, probe_issues.
    destruct pom, src_main, src_test;
      destruct build as [code err| |msg]; try destruct (code =? 0)%Z;
      final_status_case.
Qed.

Lemma final_of_found_ok (build : BuildOutcome) (n p : string) (b : bool) (m : string) :
  m <> "编译失败" ->
  final_status_ok build (final_of build (ModuleStatus_found n p b m)).
Proof.
  intros Hm. unfold final_status_ok.
  unfold final_of, build_effect, build_ok, build_failed, mark_compilation,
    estimate_coverage, ModuleStatus_found.
  destruct b; destruct build as [code err| |msg]; try destruct (code =? 0)%Z;
    final_status_case.
Qed.

Lemma probe_aborted_ok (h : Host) (n p : string) (s : ModuleStatus) :
  analyze_module h n p = Return s -> aborted_status_ok s.
Proof.
  intros Hs. unfold aborted_status_ok, not.
  destruct (analyze_module_inv h n p s Hs)
    as [[_ ->]|(pom & src_main & src_test & _ & _ & _ & _ & _ & ->)].
  - unfold missing_status, dir_missing. final_status_case.
  - unfold probe_issues. destruct pom, src_main, src_test; final_status_case.
Qed.

Lemma found_aborted_ok (n p : string) (b : bool) (m : string) :
  m <> "编译失败" -> aborted_status_ok (ModuleStatus_found n p b m).
Proof.
  intros Hm. unfold aborted_status_ok, ModuleStatus_found, not.
  destruct b; final_status_case.
Qed.

Lemma found_messages_differ (m : string) :
  In m ["测试框架模块缺失"; "后台管理控制台缺失"] -> m <> "编译失败".
Proof. intros [<-|[<-|[]]]; discriminate. Qed.

(** X6: when a run ends whose phase 1 returned, every status has
    [compilable] true exactly when the build returned 0 and the module has
    [exists] and [has_pom]; [has_pom] or [has_tests] true only with [exists]
    true; [test_coverage] 60 or 0 by [has_tests]; and the build-failed issue
    exactly when the build returned a non-zero code and the module has
    [exists] and [has_pom].  When phase 1 raised, every status the run
    leaves has [compilable] false and [test_coverage] 0 whatever [has_tests]
    is, no build-failed issue, and [has_pom] or [has_tests] true only with
    [exists] true. *)
Theorem statuses_at_end_of_run :
  forall (h : Host) (root : string) (build : BuildOutcome) (ts : string),
    if probing_returned h root ts
    then Forall (final_status_ok build) (all_statuses (run_assessment h root build ts))
    else Forall aborted_status_ok (all_statuses (run_assessment h root build ts)).
Proof.
  intros h root build ts.
  rewrite all_statuses_run_assessment.
  destruct (probing_returned h root ts).
  - apply Forall_map.
    apply (probing_Forall_found h root (initial_result ts)
             (fun s => final_status_ok build (final_of build s))).
    + constructor.
    + intros n p s. apply final_of_probe_ok.
    + intros n p b m Hm. apply final_of_found_ok, found_messages_differ, Hm.
  - apply (probing_Forall_found h root (initial_result ts) aborted_status_ok).
    + constructor.
    + intros n p s. apply probe_aborted_ok.
    + intros n p b m Hm. apply found_aborted_ok, found_messages_differ, Hm.
Qed.

(** X7: the phases after phase 1 keep the keys of every dictionary and, of
    every status phase 1 stored, its name, path, [exists], [has_pom] and
    [has_tests]; the issues of phase 1 stay in place and in order, followed
    by the build-failed issue when phase 1 returned, the build returned a
    non-zero code and the module has [exists] and [has_pom], and by nothing
    otherwise (in a run whose phase 1 raised no build is run). *)
Theorem probe_fields_frozen_issues_append_only :
  forall (h : Host) (root : string) (build : BuildOutcome) (ts : string)
         (g : ModuleGroup) (n : string) (s : ModuleStatus),
    dict_get (group_modules g (after_probing h root ts)) n = Some s ->
    dict_keys (group_modules g (run_assessment h root build ts)) =
      dict_keys (group_modules g (after_probing h root ts)) /\
    exists s',
      dict_get (group_modules g (run_assessment h root build ts)) n = Some s' /\
      name s' = name s /\ path s' = path s /\ exists_ s' = exists_ s /\
      has_pom s' = has_pom s /\ has_tests s' = has_tests s /\
      issues s' =
        (issues s ++ (if probing_returned h root ts && build_failed build
                         && (exists_ s && has_pom s)
                      then ["编译失败"] else []))%list.
Proof.
  intros h root build ts g n s Hget.
  split.
  - unfold run_assessment, after_probing. rewrite run_assessment_on_modules.
    destruct (snd (check_module_completeness h root (initial_result ts)));
      [reflexivity|apply dict_keys_update_values].
  - rewrite run_assessment_get, Hget.
    destruct (probing_returned h root ts); cbn [option_map andb].
    + exists (final_of build s). split; [reflexivity|].
      destruct s as [sn sp e m c t q i].
      unfold final_of, build_effect, build_failed, mark_compilation,
        estimate_coverage.
      destruct build as [code err| |msg]; try destruct (code =? 0)%Z;
        destruct e, m, t; cbn; rewrite ?app_nil_r; repeat split.
    + exists s. rewrite app_nil_r. repeat split.
Qed.

Lemma probe_fields_frozen_issues_append_only_witness :
  dict_keys (group_modules Framework
               (run_assessment host_all_present "/srv/game" (Completed 1 "err") "t")) =
    dict_keys (group_modules Framework (after_probing host_all_present "/srv/game" "t")) /\
  exists s',
    dict_get (group_modules Framework
                (run_assessment host_all_present "/srv/game" (Completed 1 "err") "t"))
      "ecs" = Some s' /\
    name s' = "ecs" /\ path s' = "/srv/game/frame/frame-ecs" /\ exists_ s' = true /\
    has_pom s' = true /\ has_tests s' = true /\
    issues s' = ["编译失败"].
Proof.
  exact (probe_fields_frozen_issues_append_only host_all_present "/srv/game"
           (Completed 1 "err") "t" Framework "ecs"
           (mkModuleStatus "ecs" "/srv/game/frame/frame-ecs" true true false true 0 [])
           eq_refl).
Defined.

Theorem build_success_marks_modules :
  forall (r : AssessmentResult) (stderr : string),
    (forall g n s,
        dict_get (group_modules g r) n = Some s ->
        dict_get (group_modules g (fst (check_compilation (Completed 0 stderr) r))) n =
          Some (if exists_ s && has_pom s
                then mkModuleStatus (name s) (path s) (exists_ s) (has_pom s) true
                       (has_tests s) (test_coverage s) (issues s)
                else s)) /\
    snd (check_compilation (Completed 0 stderr) r) = [(INFO, "检查项目编译状态...")].
Proof.
  intros r stderr. split; [|reflexivity].
  intros g n s Hget. rewrite check_compilation_get, Hget.
  cbn [option_map build_effect Z.eqb]. unfold mark_compilation.
  destruct (exists_ s && has_pom s); reflexivity.
Qed.


(** ** The category scores at the end of a run *)

Lemma Q_of_nat_pos (n : nat) : 0 < n -> (0 < Q_of_nat n)%Q.
Proof. intros H. unfold Qlt, Q_of_nat. simpl. lia. Qed.

Lemma Q_of_nat_nonneg (n : nat) : (0 <= Q_of_nat n)%Q.
Proof. unfold Qle, Q_of_nat. simpl. lia. Qed.

Lemma Q_of_nat_succ (n : nat) : (Q_of_nat (n + 1) == Q_of_nat n + 1)%Q.
Proof. unfold Q_of_nat. rewrite Nat2Z.inj_add, inject_Z_plus. reflexivity. Qed.

Lemma percentage_self (k : nat) : 0 < k -> (percentage k k == 100)%Q.
Proof.
  intros H. unfold percentage. destruct k as [|k]; [lia|]. cbn [Nat.eqb].
  pose proof (Q_of_nat_pos (S k) H) as Hp.
  field. intros E. rewrite E in Hp. discriminate.
Qed.

Lemma percentage_zero (n : nat) : (percentage 0 n == 0)%Q.
Proof.
  unfold percentage. destruct (n =? 0); [reflexivity|].
  unfold Qdiv. change (Q_of_nat 0) with 0%Q. ring.
Qed.

Lemma percentage_nonneg (k n : nat) : (0 <= percentage k n)%Q.
Proof.
  unfold percentage. destruct (n =? 0) eqn:E; [apply Qle_refl|].
  apply Nat.eqb_neq in E.
  apply Qmult_le_0_compat; [|discriminate].
  apply Qle_shift_div_l; [apply Q_of_nat_pos; lia|].
  rewrite Qmult_0_l. apply Q_of_nat_nonneg.
Qed.

Lemma compiled_final_of (build : BuildOutcome) (s : ModuleStatus) :
  compilable s = false ->
  working (final_of build s) && compilable (final_of build s) =
  build_ok build && working s.
Proof.
  destruct s as [sn sp e m c t q i]. cbn [compilable]. intros ->.
  unfold final_of, build_effect, build_ok, mark_compilation, estimate_coverage, working.
  destruct build as [code err| |msg]; try destruct (code =? 0)%Z;
    destruct e, m, t; reflexivity.
Qed.

Lemma count_compiled_final (build : BuildOutcome) (l : list ModuleStatus) :
  Forall (fun s => compilable s = false) l ->
  length (filter (fun s => working s && compilable s) (map (final_of build) l)) =
  if build_ok build then length (filter working l) else 0.
Proof.
  induction 1 as [|s l Hs Hl IH]; cbn [map filter length].
  - now destruct (build_ok build).
  - rewrite (compiled_final_of build s Hs).
    destruct (build_ok build), (working s); cbn [andb length]; now rewrite IH.
Qed.

Lemma coverage_final_of (build : BuildOutcome) (s : ModuleStatus) :
  (0 <= test_coverage (final_of build s) /\ test_coverage (final_of build s) <= 60)%Q.
Proof.
  unfold final_of, estimate_coverage.
  destruct (has_tests (build_effect build s)); cbn [test_coverage set_test_coverage];
    split; discriminate.
Qed.

Lemma test_total_bounds (l : list ModuleStatus) (q : Q) (k : nat) :
  Forall (fun s => (0 <= test_coverage s /\ test_coverage s <= 60)%Q) l ->
  (q <= fst (fold_left test_score_step l (q, k)) /\
   fst (fold_left test_score_step l (q, k))
   <= q + 60 * Q_of_nat (length (filter exists_ l)))%Q.
Proof.
  intros H. revert q k.
  induction H as [|s l [Hs0 Hs60] Hl IH]; intros q k; cbn [fold_left filter].
  - cbn [fst length]. change (Q_of_nat 0) with 0%Q. split; lra.
  - replace (test_score_step (q, k) s)
      with (if exists_ s then ((q + test_coverage s)%Q, k + 1) else (q, k))
      by reflexivity.
    destruct (exists_ s).
    + destruct (IH (q + test_coverage s)%Q (k + 1)) as [IH1 IH2].
      cbn [length].
      replace (S (length (filter exists_ l))) with (length (filter exists_ l) + 1) by lia.
      rewrite Q_of_nat_succ. split; lra.
    + apply IH.
Qed.
Lemma registries_after_run (h : Host) (root : string)
    (build : BuildOutcome) (ts : string) :
  performance_metrics (after_registries h root build ts) = benchmark_entries /\
  integration_tests (after_registries h root build ts) =
    map (fun scenario => (scenario, false)) test_scenarios.
Proof.
  rewrite after_registries_before_scoring. split.
  - now rewrite before_scoring_metrics.
  - unfold before_scoring.
    cbn [run_integration_tests set_integration_tests integration_tests].
    assert (E : integration_tests
                  (run_performance_tests
                     (check_test_coverage
                        (fst (check_compilation build
                                (fst (check_module_completeness h root
                                        (initial_result ts)))))))
                = []).
    { destruct (probing_rest h root (initial_result ts)) as (_ & H & _).
      destruct build as [code err| |msg]; cbn [check_compilation fst];
        [destruct (code =? 0)%Z|..]; exact H. }
    rewrite E. reflexivity.
Qed.

(** The five category scores phase 6 computes on the result phases 1 to 5
    leave. *)
Lemma registries_scores (h : Host) (root : string) (build : BuildOutcome) (ts : string) :
  exists m b t p i,
    calculate_module_score (after_registries h root build ts) = Return m /\
    calculate_build_score (after_registries h root build ts) = Return b /\
    calculate_test_score (after_registries h root build ts) = Return t /\
    calculate_performance_score (after_registries h root build ts) = Return p /\
    calculate_integration_score (after_registries h root build ts) = Return i /\
    (probing_error h root ts = None ->
     run_assessment h root build ts =
       set_recommendations (derive_recommendations m b t p i)
         (set_overall_score (py_sum (weighted_scores m b t p i))
            (after_registries h root build ts))) /\
    (0 <= m)%Q /\ (probing_error h root ts = None -> m <= 275 # 3)%Q /\
    (b == final_build_score h root build ts)%Q /\
    (0 <= t /\ t <= 60)%Q /\ (p == 0)%Q /\ (i == 0)%Q.
Proof.
  set (R := after_registries h root build ts).
  destruct (calculate_score_returns R)
    as (m & b & t & p & i & Hm & Hb & Ht & Hp & Hi & Hr).
  exists m, b, t, p, i.
  assert (Vm : m = percentage (length (filter working (all_statuses R)))
                              (length (all_statuses R)))
    by (pose proof (calculate_module_score_value R); congruence).
  assert (Vb : b = percentage
                     (length (filter (fun s => working s && compilable s)
                                (all_statuses R)))
                     (length (filter working (all_statuses R))))
    by (pose proof (calculate_build_score_value R); congruence).
  assert (Vt : t = (if length (filter exists_ (all_statuses R)) =? 0 then 0%Q
                    else (fst (fold_left test_score_step (all_statuses R) (0%Q, 0%nat))
                          / Q_of_nat (length (filter exists_ (all_statuses R))))%Q))
    by (pose proof (calculate_test_score_value R) as V; cbv zeta in V; congruence).
  assert (Vp : p = percentage (length (filter passed (performance_metrics R)))
                              (length (performance_metrics R)))
    by (pose proof (calculate_performance_score_value R); congruence).
  assert (Vi : i = percentage
                     (length (filter (fun b : bool => b)
                                (dict_values (integration_tests R))))
                     (dict_len (integration_tests R)))
    by (pose proof (calculate_integration_score_value R); congruence).
  assert (Hf : Forall (fun s => (0 <= test_coverage s /\ test_coverage s <= 60)%Q)
                 (all_statuses R)).
  { unfold R. rewrite all_statuses_after_registries. apply Forall_map, Forall_forall.
    intros s _. apply coverage_final_of. }
  destruct (test_total_bounds _ 0%Q 0 Hf) as [Htot0 Htot1].
  destruct (registries_after_run h root build ts) as [Hpm Hit]. fold R in Hpm, Hit.
  split; [exact Hm|]. split; [exact Hb|]. split; [exact Ht|].
  split; [exact Hp|]. split; [exact Hi|].
  split.
  { intros Herr.
    destruct (run_assessment_on_returned h root build (initial_result ts) Herr)
      as (m' & b' & t' & p' & i' & Hm' & Hb' & Ht' & Hp' & Hi' & Hr').
    rewrite <- after_registries_before_scoring in Hm', Hb', Ht', Hp', Hi', Hr'.
    fold R in Hm', Hb', Ht', Hp', Hi', Hr'.
    unfold run_assessment. rewrite Hr'. congruence. }
  split; [|split; [|split; [|split; [split|split]]]].
  - rewrite Vm. apply percentage_nonneg.
  - intros Herr.
    destruct (working_after_registries h root build ts Herr) as [Hlen Hw].
    fold R in Hlen, Hw.
    rewrite Vm, Hlen. destruct (percentage_bound _ Hw) as [E Hle]. rewrite E.
    apply (Qle_trans _ _ _ Hle). discriminate.
  - rewrite Vb. unfold R. rewrite all_statuses_after_registries.
    rewrite count_compiled_final by apply after_probing_not_compilable.
    rewrite (filter_map_same working) by apply working_final_of.
    unfold final_build_score, working_modules_found.
    destruct (build_ok build); cbn [andb]; [|apply percentage_zero].
    destruct (length (filter working (all_statuses (after_probing h root ts))))
      as [|k]; [reflexivity|].
    apply percentage_self. lia.
  - rewrite Vt.
    destruct (length (filter exists_ (all_statuses R)) =? 0) eqn:E; [apply Qle_refl|].
    apply Nat.eqb_neq in E.
    apply Qle_shift_div_l; [apply Q_of_nat_pos; lia|].
    rewrite Qmult_0_l. exact Htot0.
  - rewrite Vt.
    destruct (length (filter exists_ (all_statuses R)) =? 0) eqn:E; [discriminate|].
    apply Nat.eqb_neq in E.
    apply Qle_shift_div_r; [apply Q_of_nat_pos; lia|]. lra.
  - rewrite Vp, Hpm. reflexivity.
  - rewrite Vi, Hit. reflexivity.
Qed.

(** When phase 1 of the first run raises, the run ends with the score of
    [__init__] and the error entry as its only recommendation. *)
Lemma run_assessment_raised (h : Host) (root : string) (build : BuildOutcome)
    (ts : string) (e : PyExc) :
  probing_error h root ts = Some e ->
  overall_score (run_assessment h root build ts) = 0%Q /\
  recommendations (run_assessment h root build ts) =
    ["评估过程出现错误: " ++ exc_str e].
Proof.
  intros Herr. unfold run_assessment.
  rewrite (run_assessment_on_raised h root build _ e Herr).
  destruct (probing_rest h root (initial_result ts)) as (_ & _ & Hs & Hr & _).
  cbn [on_error overall_score recommendations set_recommendations].
  rewrite Hs, Hr. split; reflexivity.
Qed.

(** X9: the build score phase 6 computes on the result phases 1 to 5 leave
    is all or nothing: 100 when the build returned 0 and phase 1 found at
    least one module with [exists] and [has_pom], and 0 in every other case
    (non-zero code, timeout, other error, or no such module). *)
Theorem build_score_all_or_nothing :
  forall (h : Host) (root : string) (build : BuildOutcome) (ts : string),
  exists b,
    calculate_build_score (after_registries h root build ts) = Return b /\
    (b == if build_ok build && (0 <? working_modules_found h root ts)
          then 100 else 0)%Q.
Proof.
  intros h root build ts.
  destruct (registries_scores h root build ts)
    as (m & b & t & p & i & _ & Hb & _ & _ & _ & _ & _ & _ & Hbv & _).
  exists b. split; [exact Hb|exact Hbv].
Qed.


(** X11: when phase 1 returned, the recommendations a run ends with are,
    in this order: the module recommendation iff the module score is below
    80, the build recommendation unless the build returned 0 and phase 1
    found a module with [exists] and [has_pom], and then always the test,
    benchmark and scenario recommendations, and the entry of the error
    handler of [run_assessment] is not among them.  When phase 1 raised, the
    entry of the error handler, with the text of the exception, is the only
    recommendation. *)
Theorem recommendations_at_end_of_run :
  forall (h : Host) (root : string) (build : BuildOutcome) (ts : string),
    match probing_error h root ts with
    | None =>
        exists m,
          calculate_module_score (after_registries h root build ts) = Return m /\
          recommendations (run_assessment h root build ts) =
            ((if Qlt_le_dec m 80 then [rec_module] else [])
             ++ (if build_ok build && (0 <? working_modules_found h root ts)
                 then [] else [rec_build])
             ++ [rec_test; rec_perf; rec_integration])%list
    | Some e =>
        recommendations (run_assessment h root build ts) =
          ["评估过程出现错误: " ++ exc_str e]
    end.
Proof.
  intros h root build ts.
  destruct (probing_error h root ts) as [e|] eqn:Herr.
  - apply (run_assessment_raised h root build ts e Herr).
  - destruct (registries_scores h root build ts)
      as (m & b & t & p & i & Hm & Hb & Ht & Hp & Hi & Hr & _ & _ & Hbv & [Ht0 Ht1]
          & Hp0 & Hi0).
    specialize (Hr Herr).
    exists m. split; [exact Hm|].
    rewrite Hr. cbn [recommendations set_recommendations].
    unfold derive_recommendations.
    assert (Et : Qltb t 70 = true).
    { apply Qltb_lt. apply (Qle_lt_trans _ _ _ Ht1). reflexivity. }
    rewrite Et, (Qltb_proper p 0 60 Hp0), (Qltb_proper i 0 50 Hi0),
      (Qltb_proper b _ 90 Hbv), (Qltb_dec m 80).
    unfold final_build_score.
    destruct (Qlt_le_dec m 80),
      (build_ok build && (0 <? working_modules_found h root ts)); reflexivity.
Qed.

(** X12: the aggregator reads neither the score nor the recommendations
    the result already has: it gives the same result whatever they were, so
    recommendations of an earlier run are replaced, not kept; and it changes
    nothing but these two fields. *)
Theorem aggregator_replaces_score_and_recommendations :
  forall (r : AssessmentResult) (old_score : Q) (old_recommendations : list string),
    calculate_score_and_recommendations
      (set_recommendations old_recommendations (set_overall_score old_score r)) =
    calculate_score_and_recommendations r /\
    exists r',
      calculate_score_and_recommendations r = Return r' /\
      framework_modules r' = framework_modules r /\
      business_modules r' = business_modules r /\
      support_modules r' = support_modules r /\
      performance_metrics r' = performance_metrics r /\
      integration_tests r' = integration_tests r /\
      timestamp r' = timestamp r.
Proof.
  intros r old_score old_recommendations. split.
  - destruct r as [fw biz sup metrics tests score recs ts]. reflexivity.
  - destruct (calculate_score_returns r)
      as (m & b & t & p & i & _ & _ & _ & _ & _ & Hr).
    eexists. split; [exact Hr|]. repeat split.
Qed.
